(** * sphero_rvr_chat: the stdio JSON-RPC client ([mcp_client.py])

    A shallow embedding of [MCPClient] and [convert_tools_to_ollama], and the
    properties of the transport that the specification states about them.

    Conventions of the embedding.
    - A Python [str] is a [string]; each [ascii] stands for the code point of
      the same number (the Latin-1 range).
    - A decoded JSON value is a [json]; a Python [dict] keeps its insertion
      order, so it is an association list.  Numbers are Python [int]s; a
      [float] behaves like an [int] under every operation the client applies
      to a decoded value (truth test by comparison with zero, no [len], no
      [in], no subscript, no [.get]) and is left out.
    - An expression that can raise evaluates to a [py A]: [Ok a] or
      [Raise e].
    - [json.loads] and [json.dumps] are library functions; the client is
      modelled over an arbitrary decoder and encoder (section variables), and
      a reference codec for the ASCII fragment is used to run examples.  The
      decoder returns a value or raises: [JSONDecodeError] on a text that is
      not JSON, another exception where the interpreter's limits are hit
      ([ValueError] on an integer literal that is too long, [RecursionError]
      on nesting that is too deep).  The encoder raises on the same limits;
      which values it rejects is part of the environment.
    - The child process, its pipes and the event-loop clock form the
      environment: a [World] holds the client object, the clock, what was
      printed on the client's own stderr, the handles it let go of and the
      encoder's limits.  The clock counts time units; a read completes at the
      instant its line arrives, a write when the pipe has room for it, a wait
      when the child exits or the timeout expires, and every other step takes
      no time.  A write has no timeout: it blocks for as long as the child
      does not drain its stdin.  A child that never drains it, on which the
      call would not return, is not modelled.
    - [asyncio.Lock] is left out: the embedding is sequential, so the lock is
      free at every entry of [_request] and released at every exit. *)

From Stdlib Require Import ZArith List String Ascii Bool Lia DecimalString Sorted.
Import ListNotations.
Local Open Scope string_scope.
Local Open Scope Z_scope.

(** ** Decoded JSON values and the Python operations applied to them *)

#[local] Unset Elimination Schemes.
Inductive json : Type :=
| JNull
| JBool (b : bool)
| JInt (z : Z)
| JStr (s : string)
| JList (l : list json)
| JDict (d : list (string * json)).
#[local] Set Elimination Schemes.

Inductive exn : Type :=
| TypeError
| AttributeError
| KeyError
| IndexError
| JSONDecodeError
| TimeoutError
| TimeoutExpired
| BrokenPipeError
| OSError
| ValueError
| RecursionError
| UnicodeDecodeError.

Inductive py (A : Type) : Type :=
| Ok (a : A)
| Raise (e : exn).
Arguments Ok {A} a.
Arguments Raise {A} e.

Definition bind {A B : Type} (m : py A) (k : A -> py B) : py B :=
  match m with
  | Ok a => k a
  | Raise e => Raise e
  end.

Notation "x <- m ;; k" := (bind m (fun x => k))
  (at level 61, m at next level, right associativity).

Notation "' pat <- m ;; k" := (bind m (fun x => match x with pat => k end))
  (at level 61, pat pattern, m at next level, right associativity).

(** [d.get(k)] on the items of a dict: [None] when the key is missing. *)
Fixpoint dict_get (k : string) (d : list (string * json)) : option json :=
  match d with
  | [] => None
  | (k', v) :: d' => if String.eqb k k' then Some v else dict_get k d'
  end.

(** [needle in hay] for two strings. *)
Fixpoint str_contains (needle hay : string) : bool :=
  prefix needle hay
  || match hay with
     | EmptyString => false
     | String _ hay' => str_contains needle hay'
     end.

Definition is_str (k : string) (v : json) : bool :=
  match v with
  | JStr s => String.eqb s k
  | _ => false
  end.

(** [bool(v)]. *)
Definition truthy (v : json) : bool :=
  match v with
  | JNull => false
  | JBool b => b
  | JInt z => negb (z =? 0)
  | JStr s => negb (String.eqb s "")
  | JList l => match l with [] => false | _ => true end
  | JDict d => match d with [] => false | _ => true end
  end.

(** [k in v] for a string [k]. *)
Definition py_in (k : string) (v : json) : py bool :=
  match v with
  | JDict d => Ok (match dict_get k d with Some _ => true | None => false end)
  | JList l => Ok (existsb (is_str k) l)
  | JStr s => Ok (str_contains k s)
  | JNull | JBool _ | JInt _ => Raise TypeError
  end.

(** [v[k]] for a string [k]. *)
Definition getitem (v : json) (k : string) : py json :=
  match v with
  | JDict d => match dict_get k d with Some x => Ok x | None => Raise KeyError end
  | _ => Raise TypeError
  end.

(** [v.get(k, default)]: only a dict has the method. *)
Definition py_get (v : json) (k : string) (default : json) : py json :=
  match v with
  | JDict d => Ok (match dict_get k d with Some x => x | None => default end)
  | _ => Raise AttributeError
  end.

(** [len(v)]. *)
Definition py_len (v : json) : py Z :=
  match v with
  | JStr s => Ok (Z.of_nat (String.length s))
  | JList l => Ok (Z.of_nat (List.length l))
  | JDict d => Ok (Z.of_nat (List.length d))
  | JNull | JBool _ | JInt _ => Raise TypeError
  end.

(** [v[0]].  The keys of a decoded dict are strings, so [0] is never one. *)
Definition getitem0 (v : json) : py json :=
  match v with
  | JList l => match l with x :: _ => Ok x | [] => Raise IndexError end
  | JStr s => match s with String c _ => Ok (JStr (String c "")) | EmptyString => Raise IndexError end
  | JDict _ => Raise KeyError
  | JNull | JBool _ | JInt _ => Raise TypeError
  end.

(** [response and k in response], for the [dict | None] that [_request]
    returns. *)
Definition and_in (response : option json) (k : string) : py bool :=
  match response with
  | None => Ok false
  | Some r => if truthy r then py_in k r else Ok false
  end.

(** ** [str.strip] and [str.startswith] *)

(** The line terminator. *)
Definition nl : string := String (ascii_of_nat 10) "".

(** [c.isspace()] on the Latin-1 range. *)
Definition isspace (c : ascii) : bool :=
  let n := Z.of_nat (nat_of_ascii c) in
  ((9 <=? n) && (n <=? 13)) || ((28 <=? n) && (n <=? 32)) || (n =? 133) || (n =? 160).

Fixpoint lstrip (s : string) : string :=
  match s with
  | EmptyString => EmptyString
  | String c s' => if isspace c then lstrip s' else s
  end.

Fixpoint rstrip (s : string) : string :=
  match s with
  | EmptyString => EmptyString
  | String c s' =>
      match rstrip s' with
      | EmptyString => if isspace c then EmptyString else String c EmptyString
      | r => String c r
      end
  end.

Definition strip (s : string) : string := rstrip (lstrip s).

Definition startswith (s pre : string) : bool := prefix pre s.

(** ** The child process and the client object *)

(** Process-control calls made on a handle. [WaitFor t reaped] is
    [wait(timeout=t)]: [reaped = true] when it returned (the child was
    reaped), [false] when it raised [TimeoutExpired]. *)
Inductive proc_call : Type :=
| Terminate
| WaitFor (timeout : Z) (reaped : bool)
| Kill.

(** A [subprocess.Popen] handle with both pipes open ([stdin=PIPE],
    [stdout=PIPE], so neither stream attribute is ever [None]).
    - [stdin]: the lines the pipe accepted, oldest first (the wire).
    - [stdin_broken_at]: the instant from which a write raises
      [BrokenPipeError] (the child stopped reading), if any.
    - [stdin_room_at]: the instant from which the pipe has room (the child
      drains its stdin); a write issued earlier blocks until then.
    - [stdout]: what the successive [readline] calls will return or raise
      ([UnicodeDecodeError] on bytes the text layer cannot decode), each with
      the instant at which it becomes available; the empty string is
      end-of-stream; a read past the end of the list never completes.
    - [read_ahead]: how the output reaches the reader in chunks.  Applied to
      the reads pending when a read is abandoned, it gives the number of
      lines after the first that the abandoned read pulls into the reader's
      buffer along with it.
    - [sigterm_exit]: how long after SIGTERM the child exits ([None]: it
      ignores the signal).
    - [calls]: the process-control calls made so far, oldest first. *)
Record Popen : Type := mkPopen {
  stdin : list string;
  stdin_broken_at : option Z;
  stdin_room_at : Z;
  stdout : list (Z * py string);
  read_ahead : list (Z * py string) -> nat;
  sigterm_exit : option Z;
  calls : list proc_call
}.

Record MCPClient : Type := mkMCPClient {
  command : list string;
  process : option Popen;
  _request_id : Z
}.

(** What the client prints on its own stderr. *)
Inductive diag : Type :=
| RequestTimedOut
| RequestError (e : exn)
| NotificationError (e : exn)
| StartFailed (e : exn).

(** [encoder_rejects]: what [json.dumps] raises on a value that reaches the
    interpreter's limits ([ValueError] on an integer beyond the digit limit
    of the int-to-str conversion, [RecursionError] on nesting beyond the
    recursion limit), [None] on a value it encodes. *)
Record World : Type := mkWorld {
  self : MCPClient;
  clock : Z;
  stderr : list diag;
  dropped : list Popen;
  encoder_rejects : json -> option exn
}.

Definition __init__ (command : list string) : MCPClient :=
  mkMCPClient command None 0.

Definition set_stdin (p : Popen) (l : list string) : Popen :=
  mkPopen l (stdin_broken_at p) (stdin_room_at p) (stdout p) (read_ahead p)
          (sigterm_exit p) (calls p).

Definition set_stdout (p : Popen) (o : list (Z * py string)) : Popen :=
  mkPopen (stdin p) (stdin_broken_at p) (stdin_room_at p) o (read_ahead p)
          (sigterm_exit p) (calls p).

Definition set_process (w : World) (p : option Popen) : World :=
  mkWorld (mkMCPClient (command (self w)) p (_request_id (self w)))
          (clock w) (stderr w) (dropped w) (encoder_rejects w).

Definition set_request_id (w : World) (i : Z) : World :=
  mkWorld (mkMCPClient (command (self w)) (process (self w)) i)
          (clock w) (stderr w) (dropped w) (encoder_rejects w).

Definition set_clock (w : World) (t : Z) : World :=
  mkWorld (self w) t (stderr w) (dropped w) (encoder_rejects w).

Definition print_stderr (w : World) (m : diag) : World :=
  mkWorld (self w) (clock w) (stderr w ++ [m]) (dropped w) (encoder_rejects w).

Definition drop_handle (w : World) (p : Popen) : World :=
  mkWorld (self w) (clock w) (stderr w) (dropped w ++ [p]) (encoder_rejects w).

(** The instant at which a write issued at [now] gets room in the pipe. *)
Definition write_done (p : Popen) (now : Z) : Z := Z.max now (stdin_room_at p).

(** [stdin.write(line); stdin.flush()] at instant [now]: what the write
    returns or raises, and the instant at which it does.  The write blocks
    until the pipe has room; it raises [BrokenPipeError] when the pipe is
    broken by then, at once if it was broken already. *)
Definition write_flush (p : Popen) (now : Z) (line : string) : py Popen * Z :=
  match stdin_broken_at p with
  | Some t =>
      if t <=? write_done p now then (Raise BrokenPipeError, Z.max now t)
      else (Ok (set_stdin p (stdin p ++ [line])), write_done p now)
  | None => (Ok (set_stdin p (stdin p ++ [line])), write_done p now)
  end.

Definition add_call (p : Popen) (c : proc_call) : Popen :=
  mkPopen (stdin p) (stdin_broken_at p) (stdin_room_at p) (stdout p) (read_ahead p)
          (sigterm_exit p) (calls p ++ [c]).

Definition is_kill (c : proc_call) : bool :=
  match c with Kill => true | _ => false end.

Definition is_terminate (c : proc_call) : bool :=
  match c with Terminate => true | _ => false end.

Definition is_reap (c : proc_call) : bool :=
  match c with WaitFor _ true => true | _ => false end.

(** How long the child takes to exit, given the signals sent so far:
    at once after SIGKILL, after [sigterm_exit] after SIGTERM, never when
    left alone. *)
Definition exit_delay (p : Popen) : option Z :=
  if existsb is_kill (calls p) then Some 0
  else if existsb is_terminate (calls p) then sigterm_exit p
  else None.

Definition terminate (p : Popen) : Popen := add_call p Terminate.

Definition kill (p : Popen) : Popen := add_call p Kill.

(** [wait(timeout=t)]: the handle afterwards, whether the call returned or
    raised [TimeoutExpired], and the time it took. *)
Definition wait (p : Popen) (t : Z) : Popen * py unit * Z :=
  match exit_delay p with
  | Some d =>
      if d <=? t then (add_call p (WaitFor t true), Ok tt, Z.max 0 d)
      else (add_call p (WaitFor t false), Raise TimeoutExpired, t)
  | None => (add_call p (WaitFor t false), Raise TimeoutExpired, t)
  end.

(** The number of times the child was reaped through the handle. *)
Definition reaps (p : Popen) : nat := List.length (filter is_reap (calls p)).

Definition kills (p : Popen) : nat := List.length (filter is_kill (calls p)).

(** The JSON-RPC messages of [_request] and [_notify]. *)
Definition request_message (id : Z) (method : string) (params : json) : json :=
  JDict [("jsonrpc", JStr "2.0"); ("id", JInt id);
         ("method", JStr method); ("params", params)].

Definition notification_message (method : string) (params : json) : json :=
  JDict [("jsonrpc", JStr "2.0"); ("method", JStr method); ("params", params)].

Definition timeout : Z := 30.

Definition grace : Z := 5.

(** What becomes of the stream when [wait_for] gives up on a read: the
    future is cancelled, but the executor thread's [readline] call is not.
    What that call eventually returns is lost, and so are the lines that
    reach the reader in the same chunk, which a read already queued behind it
    never sees; [ahead] says how many these are.  End-of-stream stays. *)
Definition abandon_read (ahead : list (Z * py string) -> nat)
    (out : list (Z * py string)) : list (Z * py string) :=
  match out with
  | [] => []
  | (_, Ok EmptyString) :: _ => out
  | _ :: rest => skipn (ahead out) rest
  end.

(** The reads of a child none of whose lines makes [readline] raise. *)
Definition lines (out : list (Z * string)) : list (Z * py string) :=
  map (fun e => (fst e, Ok (snd e))) out.

(** Whether [v] holds no integer and nests containers at most [depth]
    deep. *)
Fixpoint shallow_text (depth : nat) (v : json) {struct depth} : bool :=
  match v with
  | JNull | JBool _ | JStr _ => true
  | JInt _ => false
  | JList l =>
      match depth with
      | O => false
      | S depth' => forallb (shallow_text depth') l
      end
  | JDict d =>
      match depth with
      | O => false
      | S depth' => forallb (fun kv => shallow_text depth' (snd kv)) d
      end
  end.

(** What [json.dumps] raises on a message built around [params], if
    anything.  The encoder takes every value that holds no integer and nests
    containers at most two deep, as the client's own literals do; on another
    value the interpreter's limits decide.  The envelope of the message (the
    protocol version, the method name and the request counter) is taken to
    stay within those limits. *)
Definition encode_error (w : World) (params : json) : option exn :=
  if shallow_text 2 params then None else encoder_rejects w params.

(** One iteration of the loop of [convert_tools_to_ollama]. *)
Definition convert_tool (tool : json) : py json :=
  name <- getitem tool "name" ;;
  description <- py_get tool "description" (JStr "") ;;
  parameters <- py_get tool "inputSchema"
                  (JDict [("type", JStr "object"); ("properties", JDict [])]) ;;
  Ok (JDict [("type", JStr "function");
             ("function", JDict [("name", name);
                                 ("description", description);
                                 ("parameters", parameters)])]).

Fixpoint convert_tools_to_ollama (mcp_tools : list json) : py (list json) :=
  match mcp_tools with
  | [] => Ok []
  | tool :: rest =>
      ollama_tool <- convert_tool tool ;;
      ollama_tools <- convert_tools_to_ollama rest ;;
      Ok (ollama_tool :: ollama_tools)
  end.

(** ** A reference codec for the ASCII fragment of JSON

    [json.loads] and [json.dumps] restricted to what the examples need:
    objects, arrays, strings with the standard escapes, integers and the three
    literals, under the interpreter's default limit on the length of an
    integer literal.  Where [Codec.json_loads] returns [Ok v], [json.loads]
    returns [v]; where it raises [ValueError], so does [json.loads]; it
    raises [JSONDecodeError] on every text [json.loads] rejects with that
    error and on the texts outside the fragment (numbers with a fraction or
    an exponent, [NaN], [Infinity], escapes beyond the Latin-1 range). *)
Module Codec.

Definition dquote : ascii := ascii_of_nat 34.
Definition backslash : ascii := ascii_of_nat 92.

(** Writes a text with ['] for the double quote. *)
Fixpoint q (s : string) : string :=
  match s with
  | EmptyString => EmptyString
  | String c s' => String (if Ascii.eqb c "'" then dquote else c) (q s')
  end.

Definition is_ws (c : ascii) : bool :=
  let n := nat_of_ascii c in
  Nat.eqb n 32 || Nat.eqb n 9 || Nat.eqb n 10 || Nat.eqb n 13.

Fixpoint skip_ws (s : string) : string :=
  match s with
  | String c s' => if is_ws c then skip_ws s' else s
  | EmptyString => EmptyString
  end.

Definition is_digit (c : ascii) : bool :=
  let n := nat_of_ascii c in Nat.leb 48 n && Nat.leb n 57.

Definition hex_value (c : ascii) : option nat :=
  let n := nat_of_ascii c in
  if Nat.leb 48 n && Nat.leb n 57 then Some (n - 48)%nat
  else if Nat.leb 97 n && Nat.leb n 102 then Some (n - 87)%nat
  else if Nat.leb 65 n && Nat.leb n 70 then Some (n - 55)%nat
  else None.

(** The character a one-letter escape stands for. *)
Definition unescape (c : ascii) : option ascii :=
  let n := nat_of_ascii c in
  if Nat.eqb n 34 then Some dquote
  else if Nat.eqb n 92 then Some backslash
  else if Nat.eqb n 47 then Some "/"%char
  else if Nat.eqb n 98 then Some (ascii_of_nat 8)
  else if Nat.eqb n 102 then Some (ascii_of_nat 12)
  else if Nat.eqb n 110 then Some (ascii_of_nat 10)
  else if Nat.eqb n 114 then Some (ascii_of_nat 13)
  else if Nat.eqb n 116 then Some (ascii_of_nat 9)
  else None.

(** The body of a string literal, after its opening quote: the string and
    what follows the closing quote. *)
Fixpoint scan_string (s : string) : option (string * string) :=
  match s with
  | EmptyString => None
  | String c s1 =>
      if Ascii.eqb c dquote then Some (EmptyString, s1)
      else if Ascii.eqb c backslash then
        match s1 with
        | EmptyString => None
        | String e s2 =>
            match unescape e with
            | Some ch =>
                match scan_string s2 with
                | Some (r, rest) => Some (String ch r, rest)
                | None => None
                end
            | None =>
                if Ascii.eqb e "u" then
                  match s2 with
                  | String h1 (String h2 (String h3 (String h4 s3))) =>
                      match hex_value h1, hex_value h2, hex_value h3, hex_value h4 with
                      | Some 0%nat, Some 0%nat, Some a, Some b =>
                          match scan_string s3 with
                          | Some (r, rest) =>
                              Some (String (ascii_of_nat (16 * a + b)) r, rest)
                          | None => None
                          end
                      | _, _, _, _ => None
                      end
                  | _ => None
                  end
                else None
            end
        end
      else if Nat.ltb (nat_of_ascii c) 32 then None
      else
        match scan_string s1 with
        | Some (r, rest) => Some (String c r, rest)
        | None => None
        end
  end.

(** A run of digits: its value continued from [acc], the number of digits
    read continued from [count], and what follows. *)
Fixpoint scan_digits (acc : Z) (count : nat) (s : string) : Z * nat * string :=
  match s with
  | String c s' =>
      if is_digit c
      then scan_digits (10 * acc + Z.of_nat (nat_of_ascii c - 48)) (S count) s'
      else (acc, count, s)
  | EmptyString => (acc, count, EmptyString)
  end.

Definition float_ahead (s : string) : bool :=
  match s with
  | String c _ => Ascii.eqb c "." || Ascii.eqb c "e" || Ascii.eqb c "E"
  | EmptyString => false
  end.

(** The longest integer literal the interpreter converts
    ([sys.get_int_max_str_digits()], by default). *)
Definition int_max_str_digits : nat := 4300.

Definition syntax_error {A : Type} : py A := Raise JSONDecodeError.

(** An unsigned integer literal: no leading zero, no fraction or exponent;
    [ValueError] when it has more digits than the interpreter converts. *)
Definition scan_nat (s : string) : py (Z * string) :=
  match s with
  | String c s' =>
      if Ascii.eqb c "0" then
        if float_ahead s' then syntax_error else Ok (0, s')
      else if is_digit c then
        let '(n, count, rest) := scan_digits 0 0 s in
        if float_ahead rest then syntax_error
        else if Nat.ltb int_max_str_digits count then Raise ValueError
        else Ok (n, rest)
      else syntax_error
  | EmptyString => syntax_error
  end.

Definition scan_int (s : string) : py (Z * string) :=
  match s with
  | String c s' =>
      if Ascii.eqb c "-" then
        '(n, rest) <- scan_nat s' ;; Ok (- n, rest)
      else scan_nat s
  | EmptyString => syntax_error
  end.

(** [d[k] = v] on the items of a dict. *)
Fixpoint dict_set (k : string) (v : json) (d : list (string * json))
  : list (string * json) :=
  match d with
  | [] => [(k, v)]
  | (k', v') :: d' =>
      if String.eqb k k' then (k', v) :: d' else (k', v') :: dict_set k v d'
  end.

Definition expect (pre s : string) (v : json) : py (json * string) :=
  if prefix pre s
  then Ok (v, substring (String.length pre) (String.length s - String.length pre) s)
  else syntax_error.

Fixpoint parse_value (fuel : nat) (s : string) : py (json * string) :=
  match fuel with
  | O => syntax_error
  | S fuel =>
      match s with
      | EmptyString => syntax_error
      | String c s' =>
          if Ascii.eqb c "{" then
            match skip_ws s' with
            | String c1 s1 =>
                if Ascii.eqb c1 "}" then Ok (JDict [], s1)
                else parse_members fuel [] (String c1 s1)
            | EmptyString => syntax_error
            end
          else if Ascii.eqb c "[" then
            match skip_ws s' with
            | String c1 s1 =>
                if Ascii.eqb c1 "]" then Ok (JList [], s1)
                else parse_elements fuel [] (String c1 s1)
            | EmptyString => syntax_error
            end
          else if Ascii.eqb c dquote then
            match scan_string s' with
            | Some (str, rest) => Ok (JStr str, rest)
            | None => syntax_error
            end
          else if Ascii.eqb c "n" then expect "null" s JNull
          else if Ascii.eqb c "t" then expect "true" s (JBool true)
          else if Ascii.eqb c "f" then expect "false" s (JBool false)
          else
            '(n, rest) <- scan_int s ;; Ok (JInt n, rest)
      end
  end

(** The elements of an array from the first character of an element on;
    [acc] holds those read so far, latest first. *)
with parse_elements (fuel : nat) (acc : list json) (s : string)
  : py (json * string) :=
  match fuel with
  | O => syntax_error
  | S fuel =>
      '(v, rest) <- parse_value fuel s ;;
      match skip_ws rest with
      | String c s1 =>
          if Ascii.eqb c "," then parse_elements fuel (v :: acc) (skip_ws s1)
          else if Ascii.eqb c "]" then Ok (JList (rev (v :: acc)), s1)
          else syntax_error
      | EmptyString => syntax_error
      end
  end

(** The members of an object from the opening quote of a key on; [acc] holds
    the dict built so far. *)
with parse_members (fuel : nat) (acc : list (string * json)) (s : string)
  : py (json * string) :=
  match fuel with
  | O => syntax_error
  | S fuel =>
      match s with
      | String c s' =>
          if Ascii.eqb c dquote then
            match scan_string s' with
            | Some (key, rest) =>
                match skip_ws rest with
                | String c1 s1 =>
                    if Ascii.eqb c1 ":" then
                      '(v, rest) <- parse_value fuel (skip_ws s1) ;;
                      let acc := dict_set key v acc in
                      match skip_ws rest with
                      | String c2 s2 =>
                          if Ascii.eqb c2 "," then parse_members fuel acc (skip_ws s2)
                          else if Ascii.eqb c2 "}" then Ok (JDict acc, s2)
                          else syntax_error
                      | EmptyString => syntax_error
                      end
                    else syntax_error
                | EmptyString => syntax_error
                end
            | None => syntax_error
            end
          else syntax_error
      | EmptyString => syntax_error
      end
  end.

Definition json_loads (s : string) : py json :=
  '(v, rest) <- parse_value (2 * String.length s + 2) (skip_ws s) ;;
  match skip_ws rest with
  | EmptyString => Ok v
  | _ => syntax_error
  end.

Definition hex_digit (n : nat) : ascii :=
  if Nat.ltb n 10 then ascii_of_nat (48 + n) else ascii_of_nat (87 + n).

(** One character of a string under [ensure_ascii=True]. *)
Definition escape_char (c : ascii) : string :=
  let n := nat_of_ascii c in
  if Nat.eqb n 34 then String backslash (String dquote "")
  else if Nat.eqb n 92 then String backslash (String backslash "")
  else if Nat.eqb n 10 then String backslash "n"
  else if Nat.eqb n 13 then String backslash "r"
  else if Nat.eqb n 9 then String backslash "t"
  else if Nat.eqb n 8 then String backslash "b"
  else if Nat.eqb n 12 then String backslash "f"
  else if Nat.leb 32 n && Nat.leb n 126 then String c ""
  else String backslash ("u00" ++ String (hex_digit (n / 16)) (String (hex_digit (n mod 16)) "")).

Fixpoint escape (s : string) : string :=
  match s with
  | EmptyString => EmptyString
  | String c s' => escape_char c ++ escape s'
  end.

Definition quote (s : string) : string :=
  String dquote (escape s ++ String dquote "").

Fixpoint join (sep : string) (l : list string) : string :=
  match l with
  | [] => ""
  | [x] => x
  | x :: l' => x ++ sep ++ join sep l'
  end.

Fixpoint json_dumps (v : json) : string :=
  match v with
  | JNull => "null"
  | JBool true => "true"
  | JBool false => "false"
  | JInt z => NilZero.string_of_int (Z.to_int z)
  | JStr s => quote s
  | JList l => "[" ++ join ", " (map json_dumps l) ++ "]"
  | JDict d =>
      "{" ++ join ", " (map (fun kv => quote (fst kv) ++ ": " ++ json_dumps (snd kv)) d) ++ "}"
  end.

(** The encoder under the same limit: [ValueError] on a value that holds an
    integer of more than [int_max_str_digits] digits, the least of which is
    [int_limit]. *)
Definition int_limit : Z := Eval vm_compute in 10 ^ Z.of_nat int_max_str_digits.

Fixpoint long_int (v : json) : bool :=
  match v with
  | JInt z => int_limit <=? Z.abs z
  | JList l => existsb long_int l
  | JDict d => existsb (fun kv => long_int (snd kv)) d
  | JNull | JBool _ | JStr _ => false
  end.

Definition rejects (v : json) : option exn :=
  if long_int v then Some ValueError else None.

End Codec.


(** ** Conversation history ([memory.py]) *)

(** [l[i:]], with Python's reading of a negative index. *)
Definition slice_from {A : Type} (l : list A) (i : Z) : list A :=
  let n := Z.of_nat (List.length l) in
  skipn (Z.to_nat (if i <? 0 then Z.max 0 (n + i) else Z.min i n)) l.

(** [d[k] = v] on the items of a dict. *)
Fixpoint setitem (d : list (string * json)) (k : string) (v : json)
  : list (string * json) :=
  match d with
  | [] => [(k, v)]
  | (k', v') :: d' =>
      if String.eqb k k' then (k', v) :: d' else (k', v') :: setitem d' k v
  end.

Module Memory.

(** The object of class [ConversationMemory]; [messages] is a
    [list[dict[str, Any]]]. *)
Record ConversationMemory : Type := mkConversationMemory {
  max_messages : Z;
  messages : list (list (string * json));
  session_name : option string;
  metadata : list (string * json)
}.

(** [m.get("role") == "system"]. *)
Definition is_system (m : list (string * json)) : bool :=
  match dict_get "role" m with
  | Some (JStr role) => String.eqb role "system"
  | _ => false
  end.

(** [__init__]; [created] and [updated] are what the two calls of
    [datetime.now().isoformat()] return. *)
Definition __init__ (created updated : string) (max_messages : Z)
  : ConversationMemory :=
  mkConversationMemory max_messages [] None
    [("created", JStr created); ("updated", JStr updated)].

(** [add_message]; [now] is what [datetime.now().isoformat()] returns. *)
Definition add_message (now : string) (role content : string)
    (tool_calls : option (list json)) (self : ConversationMemory)
  : ConversationMemory :=
  let message := [("role", JStr role); ("content", JStr content)] in
  let message := match tool_calls with
                 | Some (c :: l) => setitem message "tool_calls" (JList (c :: l))
                 | _ => message
                 end in
  let messages := (messages self ++ [message])%list in
  let metadata := setitem (metadata self) "updated" (JStr now) in
  let messages :=
    if max_messages self <? Z.of_nat (List.length messages) then
      match messages with
      | first :: _ =>
          if is_system first
          then first :: slice_from messages (- (max_messages self - 1))
          else slice_from messages (- max_messages self)
      | [] => slice_from messages (- max_messages self)
      end
    else messages in
  mkConversationMemory (max_messages self) messages (session_name self) metadata.

(** The message [add_message] appends. *)
Definition message_of (role content : string) (tool_calls : option (list json))
  : list (string * json) :=
  match tool_calls with
  | Some (c :: l) =>
      [("role", JStr role); ("content", JStr content); ("tool_calls", JList (c :: l))]
  | _ => [("role", JStr role); ("content", JStr content)]
  end.

Definition get_messages (self : ConversationMemory) : list (list (string * json)) :=
  messages self.

Definition clear (now : string) (self : ConversationMemory) : ConversationMemory :=
  let messages := match messages self with
                  | first :: _ => if is_system first then [first] else []
                  | [] => []
                  end in
  mkConversationMemory (max_messages self) messages (session_name self)
    (setitem (metadata self) "updated" (JStr now)).

Section Encoder.

Variable json_dumps : json -> string.

(** [add_tool_result]: a [str] result is stored as it is, any other result
    JSON-encoded. *)
Definition add_tool_result (now : string) (tool_name : string) (result : json)
    (self : ConversationMemory) : ConversationMemory :=
  let content := match result with
                 | JStr s => s
                 | _ => json_dumps result
                 end in
  mkConversationMemory (max_messages self)
    (messages self ++ [[("role", JStr "tool"); ("name", JStr tool_name);
                        ("content", JStr content)]])%list
    (session_name self)
    (setitem (metadata self) "updated" (JStr now)).

End Encoder.

End Memory.

(** ** Slash commands ([cli.py]) *)

(** [c.lower()] on the Latin-1 range. *)
Definition lower_char (c : ascii) : ascii :=
  let n := nat_of_ascii c in
  if (Nat.leb 65 n && Nat.leb n 90)
     || (Nat.leb 192 n && Nat.leb n 222 && negb (Nat.eqb n 215))
  then ascii_of_nat (n + 32)
  else c.

Fixpoint lower (s : string) : string :=
  match s with
  | EmptyString => EmptyString
  | String c s' => String (lower_char c) (lower s')
  end.

(** Whether a string holds a whitespace character. *)
Fixpoint has_space (s : string) : bool :=
  match s with
  | EmptyString => false
  | String c s' => isspace c || has_space s'
  end.

(** The characters up to the first whitespace, and what follows them. *)
Fixpoint split_word (s : string) : string * string :=
  match s with
  | EmptyString => (EmptyString, EmptyString)
  | String c s' =>
      if isspace c then (EmptyString, s)
      else let '(word, rest) := split_word s' in (String c word, rest)
  end.

(** [s.split(maxsplit=1)]. *)
Definition split1 (s : string) : list string :=
  match lstrip s with
  | EmptyString => []
  | s1 =>
      let '(word, rest) := split_word s1 in
      match lstrip rest with
      | EmptyString => [word]
      | rest => [word; rest]
      end
  end.

(** [s[1:]]. *)
Definition from_second (s : string) : string :=
  match s with
  | EmptyString => EmptyString
  | String _ s' => s'
  end.

(** The first three statements of [RVRChat.handle_command]: the command
    word and its arguments, or the [IndexError] of [parts[0]]. *)
Definition handle_command_parts (command : string) : py (string * string) :=
  let parts := split1 (from_second command) in
  match parts with
  | [] => Raise IndexError
  | cmd :: more =>
      Ok (lower cmd, match more with
                     | args :: _ => args
                     | [] => EmptyString
                     end)
  end.
(** ** Example children

    Concrete children and sessions on which the statements below are run;
    their texts are decoded and encoded with the reference codec. *)

(** A child that prints the lines [out], each in a chunk of its own, takes
    writes for ever and exits one time unit after SIGTERM. *)
Definition child_printing (out : list (Z * string)) : Popen :=
  mkPopen [] None 0 (lines out) (fun _ => 0%nat) (Some 1) [].

(** A client right after [__init__] whose handle is [p], at instant 0, under
    an encoder that takes every value. *)
Definition session_with (p : Popen) : World :=
  mkWorld (mkMCPClient ["sphero-rvr-mcp"] (Some p) 0) 0 [] [] (fun _ => None).

Definition stray_line : string :=
  Codec.q "{'jsonrpc':'2.0','id':99,'result':{'stale':true}}" ++ nl.

Definition matching_line : string :=
  Codec.q "{'jsonrpc':'2.0','id':1,'result':{'tools':[]}}" ++ nl.

(** A stray message with another id arrives before the matching response. *)
Definition stray_then_match : list (Z * string) :=
  [(1, stray_line); (2, matching_line)].

(** A banner, a blank line, a broken candidate, then the response. *)
Definition banner_then_match : list (Z * string) :=
  [(1, "Server starting..." ++ nl); (1, "   " ++ nl); (2, "{not json" ++ nl);
   (3, matching_line)].

Definition matching_message : json :=
  JDict [("jsonrpc", JStr "2.0"); ("id", JInt 1);
         ("result", JDict [("tools", JList [])])].

Definition stray_message : json :=
  JDict [("jsonrpc", JStr "2.0"); ("id", JInt 99);
         ("result", JDict [("stale", JBool true)])].




(** A child that ignores SIGTERM. *)
Definition stubborn_child : Popen := mkPopen [] None 0 [] (fun _ => 0%nat) None [].

(** A response, then a late line, then end-of-stream. *)
Definition answer_then_close : list (Z * string) :=
  [(1, matching_line); (40, "shutting down" ++ nl); (41, "")].

Definition three_calls : list (Z * (string * json)) :=
  [(0, ("initialize", JDict []));
   (0, ("tools/list", JDict []));
   (5, ("tools/call", JDict [("name", JStr "connect"); ("arguments", JDict [])]))].

Definition null_result_line : string :=
  Codec.q "{'jsonrpc':'2.0','id':1,'result':null}" ++ nl.

Definition error_string_line : string :=
  Codec.q "{'jsonrpc':'2.0','id':1,'error':'tool crashed'}" ++ nl.

Definition numeric_text_line : string :=
  Codec.q "{'jsonrpc':'2.0','id':1,'result':{'content':[{'type':'text','text':42}]}}" ++ nl.

Definition battery_line : string :=
  Codec.q "{'jsonrpc':'2.0','id':1,'result':{'content':[{'type':'text','text':'{\'battery_percentage\':87}'}]}}" ++ nl.

Definition plain_text_line : string :=
  Codec.q "{'jsonrpc':'2.0','id':1,'result':{'content':[{'type':'text','text':'not json'}]}}" ++ nl.

Definition error_line : string :=
  Codec.q "{'jsonrpc':'2.0','id':1,'error':{'code':-32000,'message':'RVR not connected'}}" ++ nl.

Definition empty_content_line : string :=
  Codec.q "{'jsonrpc':'2.0','id':1,'result':{'content':[]}}" ++ nl.

Definition image_content_line : string :=
  Codec.q "{'jsonrpc':'2.0','id':1,'result':{'content':[{'type':'image','data':'AAAA'}]}}" ++ nl.

Definition tools_line : string :=
  Codec.q "{'id':1,'result':{'tools':[{'name':'connect','description':'d'}]}}" ++ nl.

Definition initialize_result_line : string :=
  Codec.q "{'jsonrpc':'2.0','id':1,'result':{'protocolVersion':'2024-11-05','capabilities':{}}}" ++ nl.

(** A child whose first read completes at instant 1 with [line] (the empty
    string: it has closed its stdout). *)
Definition child_answering (line : string) : Popen :=
  child_printing [(1, line)].

(** A client right after [__init__], before [start]. *)
Definition fresh_world : World :=
  mkWorld (__init__ ["sphero-rvr-mcp"]) 0 [] [] (fun _ => None).

Definition connect_descriptor : json :=
  JDict [("name", JStr "connect"); ("description", JStr "d")].

Definition drive_descriptor : json :=
  JDict [("name", JStr "drive");
         ("inputSchema",
          JDict [("type", JStr "object");
                 ("properties", JDict [("speed", JDict [("type", JStr "integer")])])])].


(** A text of [n] digits. *)
Fixpoint nines (n : nat) : string :=
  match n with
  | O => ""
  | S n' => String "9" (nines n')
  end.

(** A log message that is JSON, but holds an integer of 4301 digits. *)
Definition long_number_line : string :=
  Codec.q "{'jsonrpc':'2.0','method':'log','params':{'ticks':" ++ nines 4301 ++ "}}" ++ nl.

(** The long-number log message, then the response. *)
Definition long_number_then_match : list (Z * string) :=
  [(1, long_number_line); (2, matching_line)].

(** A line the text layer cannot decode, then the response. *)
Definition undecodable_then_match : list (Z * py string) :=
  [(1, Raise UnicodeDecodeError); (2, Ok matching_line)].

(** A child whose reads are [out], in chunks of one line each. *)
Definition child_reading (out : list (Z * py string)) : Popen :=
  mkPopen [] None 0 out (fun _ => 0%nat) (Some 1) [].

(** A client under the reference encoder's limit. *)
Definition limited_session_with (p : Popen) : World :=
  mkWorld (mkMCPClient ["sphero-rvr-mcp"] (Some p) 0) 0 [] [] Codec.rejects.

(** Arguments that hold an integer of 4301 digits. *)
Definition long_arguments : json := JDict [("speed", JInt Codec.int_limit)].

(** A session whose second call passes arguments the encoder rejects. *)
Definition calls_with_long_arguments : list (Z * (string * json)) :=
  [(0, ("tools/list", JDict []));
   (0, ("tools/call", JDict [("name", JStr "drive"); ("arguments", long_arguments)]));
   (0, ("tools/call", JDict [("name", JStr "stop"); ("arguments", JDict [])]))].


Definition number_content_line : string :=
  Codec.q "{'jsonrpc':'2.0','id':1,'result':{'content':[5]}}" ++ nl.

Definition string_content_line : string :=
  Codec.q "{'jsonrpc':'2.0','id':1,'result':{'content':['plain']}}" ++ nl.

(** A child that prints [out] and does not drain its stdin before the
    instant [room]. *)
Definition child_draining_at (room : Z) (out : list (Z * string)) : Popen :=
  mkPopen [] None room (lines out) (fun _ => 0%nat) (Some 1) [].
(** A response to [disconnect] whose text decodes. *)
Definition disconnected_line : string :=
  Codec.q "{'jsonrpc':'2.0','id':1,'result':{'content':[{'type':'text','text':'{\'success\':true}'}]}}" ++ nl.

Definition system_message : list (string * json) :=
  [("role", JStr "system"); ("content", JStr "You control a Sphero RVR.")].

Definition user_message (content : string) : list (string * json) :=
  [("role", JStr "user"); ("content", JStr content)].

Definition assistant_message (content : string) : list (string * json) :=
  [("role", JStr "assistant"); ("content", JStr content)].

(** A history that is full at three messages, with a system prompt. *)
Definition full_history : Memory.ConversationMemory :=
  Memory.mkConversationMemory 3
    [system_message; user_message "drive forward"; assistant_message "Done."]
    None
    [("created", JStr "2025-01-01T10:00:00"); ("updated", JStr "2025-01-01T10:00:05")].

(** The same history without the system prompt. *)
Definition full_history_no_prompt : Memory.ConversationMemory :=
  Memory.mkConversationMemory 3
    [user_message "hello"; user_message "drive forward"; assistant_message "Done."]
    None
    [("created", JStr "2025-01-01T10:00:00"); ("updated", JStr "2025-01-01T10:00:05")].

(** A history limited to one message that holds the system prompt. *)
Definition one_message_history : Memory.ConversationMemory :=
  Memory.mkConversationMemory 1 [system_message] None
    [("created", JStr "2025-01-01T10:00:00"); ("updated", JStr "2025-01-01T10:00:00")].

Definition unlimited_history : Memory.ConversationMemory :=
  Memory.mkConversationMemory 0 [user_message "hello"] None
    [("created", JStr "2025-01-01T10:00:00"); ("updated", JStr "2025-01-01T10:00:00")].


(** A history limited to one message that holds no system prompt. *)
Definition one_message_no_prompt : Memory.ConversationMemory :=
  Memory.mkConversationMemory 1 [user_message "hello"] None
    [("created", JStr "2025-01-01T10:00:00"); ("updated", JStr "2025-01-01T10:00:00")].

(** ** The client *)

Section Client.

(** [json.loads] on a [str] and [json.dumps] on a value the encoder takes.
    The decoder raises [JSONDecodeError] on a text that is not JSON, and may
    raise something else ([ValueError], [RecursionError]) where a limit of
    the interpreter is hit. *)
Variable json_loads : string -> py json.
Variable json_dumps : json -> string.

(** [json.loads(v)] for a decoded value [v]: anything but a [str] is a
    [TypeError]. *)
Definition loads (v : json) : py json :=
  match v with
  | JStr s => json_loads s
  | _ => Raise TypeError
  end.

(** [json.dumps(message)] for a message built around [params]. *)
Definition dumps (w : World) (params message : json) : py string :=
  match encode_error w params with
  | Some e => Raise e
  | None => Ok (json_dumps message)
  end.

(** The [while True] loop of [_request], started at [start_time], entered at
    [now], over the pending reads [out].  It gives what the loop returns or
    raises, the clock at that point and the reads still pending. *)
Fixpoint read_loop (ahead : list (Z * py string) -> nat) (start_time now : Z)
    (out : list (Z * py string))
  : py (option json) * Z * list (Z * py string) :=
  let remaining := timeout - (now - start_time) in
  if remaining <=? 0 then (Raise TimeoutError, now, out)
  else
    match out with
    | [] => (Raise TimeoutError, now + remaining, [])
    | (arrival, read) :: rest =>
        let done := Z.max now arrival in
        if remaining <=? done - now
        then (Raise TimeoutError, now + remaining, abandon_read ahead out)
        else
          match read with
          | Raise e => (Raise e, done, rest)
          | Ok response_line =>
              if String.eqb response_line "" then (Ok None, done, out)
              else
                let response_line := strip response_line in
                if String.eqb response_line "" then read_loop ahead start_time done rest
                else if startswith response_line "{" then
                  match json_loads response_line with
                  | Ok v => (Ok (Some v), done, rest)
                  | Raise JSONDecodeError => read_loop ahead start_time done rest
                  | Raise e => (Raise e, done, rest)
                  end
                else read_loop ahead start_time done rest
          end
    end.

(** The two [except] clauses of [_request], applied to what its [try] block
    returned or raised. *)
Definition request_except (r : py (option json)) (w : World) : option json * World :=
  match r with
  | Ok response => (response, w)
  | Raise TimeoutError => (None, print_stderr w RequestTimedOut)
  | Raise e => (None, print_stderr w (RequestError e))
  end.

Definition _request (method : string) (params : json) (w : World)
  : option json * World :=
  match process (self w) with
  | None => (None, w)
  | Some p =>
      let id := _request_id (self w) + 1 in
      let w := set_request_id w id in
      let request := request_message id method params in
      match dumps w params request with
      | Raise e => request_except (Raise e) w
      | Ok request_json =>
          let '(written, now) := write_flush p (clock w) (request_json ++ nl) in
          let w := set_clock w now in
          match written with
          | Raise e => request_except (Raise e) w
          | Ok p =>
              let start_time := clock w in
              let '(r, now, rest) :=
                read_loop (read_ahead p) start_time start_time (stdout p) in
              request_except r
                (set_clock (set_process w (Some (set_stdout p rest))) now)
          end
      end
  end.

Definition _notify (method : string) (params : json) (w : World) : World :=
  match process (self w) with
  | None => w
  | Some p =>
      let notification := notification_message method params in
      match dumps w params notification with
      | Raise e => print_stderr w (NotificationError e)
      | Ok notification_json =>
          let '(written, now) := write_flush p (clock w) (notification_json ++ nl) in
          let w := set_clock w now in
          match written with
          | Ok p => set_process w (Some p)
          | Raise e => print_stderr w (NotificationError e)
          end
      end
  end.

Definition initialize_params : json :=
  JDict [("protocolVersion", JStr "2024-11-05");
         ("capabilities", JDict []);
         ("clientInfo", JDict [("name", JStr "rvr-chat"); ("version", JStr "0.1.0")])].

(** [start]; [spawn] is what [subprocess.Popen(self.command, ...)] does:
    it returns a fresh handle or raises. *)
Definition start (spawn : py Popen) (w : World) : bool * World :=
  match spawn with
  | Raise e => (false, print_stderr w (StartFailed e))
  | Ok p =>
      let w := match process (self w) with
               | Some old => drop_handle w old
               | None => w
               end in
      let w := set_process w (Some p) in
      let '(response, w) := _request "initialize" initialize_params w in
      match and_in response "result" with
      | Ok true => (true, _notify "notifications/initialized" (JDict []) w)
      | Ok false => (false, w)
      | Raise e => (false, print_stderr w (StartFailed e))
      end
  end.

Definition stop (w : World) : World :=
  match process (self w) with
  | None => w
  | Some p =>
      let p := terminate p in
      let '(p, r, dt) := wait p grace in
      let p := match r with
               | Ok _ => p
               | Raise _ => kill p
               end in
      drop_handle (set_clock (set_process w None) (clock w + dt)) p
  end.

(** [response[k]] once [response] is known not to be [None]. *)
Definition getitem_response (response : option json) (k : string) : py json :=
  match response with
  | Some r => getitem r k
  | None => Raise TypeError
  end.

(** The body of [list_tools] after the request. *)
Definition tools_of (response : option json) : py json :=
  has_result <- and_in response "result" ;;
  if has_result then
    result <- getitem_response response "result" ;;
    py_get result "tools" (JList [])
  else Ok (JList []).

Definition list_tools (w : World) : py json * World :=
  let '(response, w) := _request "tools/list" (JDict []) w in
  (tools_of response, w).

(** The first [if] of [call_tool]: [Some v] when it returns [v], [None] when
    control falls through to the second [if]. *)
Definition tool_content (response : option json) : py (option json) :=
  has_result <- and_in response "result" ;;
  if has_result then
    result <- getitem_response response "result" ;;
    content <- py_get result "content" (JList []) ;;
    nonempty <- (if truthy content
                 then n <- py_len content ;; Ok (0 <? n)
                 else Ok false) ;;
    if nonempty then
      first <- getitem0 content ;;
      text <- py_get first "text" (JStr "{}") ;;
      match loads text with
      | Ok v => Ok (Some v)
      | Raise JSONDecodeError => Ok (Some (JDict [("result", text)]))
      | Raise e => Raise e
      end
    else Ok None
  else Ok None.

(** The body of [call_tool] after the request. *)
Definition tool_outcome (response : option json) : py json :=
  returned <- tool_content response ;;
  match returned with
  | Some v => Ok v
  | None =>
      has_error <- and_in response "error" ;;
      if has_error then
        error <- getitem_response response "error" ;;
        message <- py_get error "message" (JStr "Unknown error") ;;
        Ok (JDict [("error", message)])
      else Ok (JDict [("error", JStr "No response from MCP server")])
  end.

Definition call_tool (name : string) (arguments : json) (w : World)
  : py json * World :=
  let '(response, w) :=
    _request "tools/call" (JDict [("name", JStr name); ("arguments", arguments)]) w in
  (tool_outcome response, w).


(** *** Vocabulary of the statements *)


(** What a line read from the child's stdout contributes: the decoded
    message when, once trimmed, it starts with an opening brace and decodes;
    nothing when it does not start with one or the decoder rejects it as not
    being JSON; the exception when the decoder raises another one. *)
Definition decode_line (line : string) : py (option json) :=
  if startswith (strip line) "{" then
    match json_loads (strip line) with
    | Ok v => Ok (Some v)
    | Raise JSONDecodeError => Ok None
    | Raise e => Raise e
    end
  else Ok None.

(** Whether the child's stdin takes a write issued at instant [now]: the
    pipe is not broken by the time it has room. *)
Definition writable (p : Popen) (now : Z) : bool :=
  match stdin_broken_at p with
  | Some t => negb (t <=? write_done p now)
  | None => true
  end.

(** The instant at which a write issued at [now] fails, on a pipe that does
    not take it. *)
Definition write_failed (p : Popen) (now : Z) : Z :=
  match stdin_broken_at p with
  | Some t => Z.max now t
  | None => now
  end.

(** Whether the encoder takes a message built around [params]. *)
Definition encodable (w : World) (params : json) : bool :=
  match encode_error w params with
  | None => true
  | Some _ => false
  end.

(** A line the read loop passes over: a line (not end-of-stream) that
    contributes no message and raises nothing. *)
Definition discarded (line : string) : Prop :=
  line <> "" /\ decode_line line = Ok None.

(** The lines on the wire: what the child's stdin received. *)
Definition wire (w : World) : list string :=
  match process (self w) with
  | Some p => stdin p
  | None => []
  end.

Definition request_line (id : Z) (call : string * json) : string :=
  json_dumps (request_message id (fst call) (snd call)) ++ nl.

Definition notification_line (method : string) (params : json) : string :=
  json_dumps (notification_message method params) ++ nl.

(** The ids [first, first + 1, ...], [n] of them. *)
Fixpoint ids_from (first : Z) (n : nat) : list Z :=
  match n with
  | O => []
  | S n' => first :: ids_from (first + 1) n'
  end.

(** A session: calls issued one after the other through [_request], each
    after the caller stayed idle for a while. *)
Fixpoint run_requests (calls : list (Z * (string * json))) (w : World)
  : list (option json) * World :=
  match calls with
  | [] => ([], w)
  | (idle, (method, params)) :: calls' =>
      let w := set_clock w (clock w + Z.max 0 idle) in
      let '(response, w) := _request method params w in
      let '(responses, w) := run_requests calls' w in
      (response :: responses, w)
  end.

(** The [id] member of a decoded message. *)
Definition message_id (v : json) : option json :=
  match v with
  | JDict d => dict_get "id" d
  | _ => None
  end.

(** The [id] member of the message a line of the wire carries. *)
Definition wire_id (line : string) : option json :=
  match json_loads (strip line) with
  | Ok v => message_id v
  | Raise _ => None
  end.

(** The calls of a session that reach the wire while the pipe takes writes,
    each with the number of the call in the session counted from [first]:
    those the encoder takes. *)
Fixpoint encoded_calls (w : World) (first : Z) (calls : list (Z * (string * json)))
  : list (Z * (string * json)) :=
  match calls with
  | [] => []
  | (_, call) :: calls' =>
      (if encodable w (snd call) then [(first, call)] else [])
      ++ encoded_calls w (first + 1) calls'
  end.

(** The responses on which [list_tools] is specified below: no response, or
    an object whose [result], when present, is an object. *)
Definition list_response_ok (response : option json) : bool :=
  match response with
  | None => true
  | Some (JDict d) =>
      match dict_get "result" d with
      | Some (JDict _) | None => true
      | Some _ => false
      end
  | Some _ => false
  end.

(** What [list_tools] is specified to return: the [tools] entry of the
    result, the empty sequence when any of the three is missing. *)
Definition list_tools_spec (response : option json) : json :=
  match response with
  | Some (JDict d) =>
      match dict_get "result" d with
      | Some (JDict result) =>
          match dict_get "tools" result with
          | Some tools => tools
          | None => JList []
          end
      | _ => JList []
      end
  | _ => JList []
  end.

(** A text on which [json.loads] returns or raises [JSONDecodeError]. *)
Definition decode_settles (text : string) : bool :=
  match json_loads text with
  | Ok _ | Raise JSONDecodeError => true
  | Raise _ => false
  end.

Definition text_ok (item : json) : bool :=
  match item with
  | JDict i =>
      match dict_get "text" i with
      | Some (JStr text) => decode_settles text
      | None => decode_settles "{}"
      | Some _ => false
      end
  | _ => false
  end.

Definition result_ok (result : json) : bool :=
  match result with
  | JDict r =>
      match dict_get "content" r with
      | None => true
      | Some (JList (item :: _)) => text_ok item
      | Some content => negb (truthy content)
      end
  | _ => false
  end.

(** The responses on which [call_tool] is specified below: no response, or
    an object whose [result], when present, is an object whose [content] is
    missing, falsy, or a list that starts with an object whose [text] is
    missing or a string, on which the decoder returns or raises
    [JSONDecodeError]; and whose [error], when present, is an object. *)
Definition call_response_ok (response : option json) : bool :=
  match response with
  | None => true
  | Some (JDict d) =>
      match dict_get "result" d with
      | Some result => result_ok result
      | None => true
      end
      && match dict_get "error" d with
         | Some (JDict _) | None => true
         | Some _ => false
         end
  | Some _ => false
  end.

(** The text of the first element of a non-empty content list of the
    result, ["{}"] when that element has none. *)
Definition content_text (response : option json) : option json :=
  match response with
  | Some (JDict d) =>
      match dict_get "result" d with
      | Some (JDict result) =>
          match dict_get "content" result with
          | Some (JList (JDict item :: _)) =>
              Some (match dict_get "text" item with
                    | Some text => text
                    | None => JStr "{}"
                    end)
          | _ => None
          end
      | _ => None
      end
  | _ => None
  end.

(** The message of the error member, ["Unknown error"] when it has none. *)
Definition error_message (response : option json) : option json :=
  match response with
  | Some (JDict d) =>
      match dict_get "error" d with
      | Some (JDict error) =>
          Some (match dict_get "message" error with
                | Some message => message
                | None => JStr "Unknown error"
                end)
      | _ => None
      end
  | _ => None
  end.

(** What [call_tool] is specified to return. *)
Definition call_tool_spec (response : option json) : json :=
  match content_text response with
  | Some (JStr text) =>
      match json_loads text with
      | Ok v => v
      | Raise _ => JDict [("result", JStr text)]
      end
  | _ =>
      match error_message response with
      | Some message => JDict [("error", message)]
      | None => JDict [("error", JStr "No response from MCP server")]
      end
  end.

(** The handle a spawned process gets installed as, by [start]. *)
Definition install (p : Popen) (w : World) : World :=
  set_process (match process (self w) with
               | Some old => drop_handle w old
               | None => w
               end) (Some p).

(** What a request amounts to once its line is on the wire, at the instant
    [start_time]. *)
Definition after_read (w : World) (p : Popen) (id : Z) (line : string)
    (r : py (option json) * Z * list (Z * py string)) : option json * World :=
  let '(r, now, rest) := r in
  request_except r
    (set_clock (set_process (set_request_id w id)
                  (Some (set_stdout (set_stdin p (stdin p ++ [line])) rest))) now).

(** The instant at which a call returns on a child that closed its stdout
    at [t]. *)
Definition eof_clock (w : World) (p : Popen) (params : json) (t : Z) : Z :=
  if encodable w params
  then if writable p (clock w)
       then Z.max (write_done p (clock w)) t
       else write_failed p (clock w)
  else clock w.


(** *** The chat application's shutdown ([cli.py]) *)

(** [RVRChat.stop] on the application's [mcp_client] attribute ([None]
    before the client was created): what the call returns or raises, and the
    attribute afterwards. *)
Definition RVRChat_stop (mcp_client : option World) : py unit * option World :=
  match mcp_client with
  | None => (Ok tt, None)
  | Some w =>
      let '(r, w) := call_tool "disconnect" (JDict []) w in
      match r with
      | Ok _ => (Ok tt, Some (stop w))
      | Raise e => (Raise e, Some w)
      end
  end.

(** Projections of updated records. *)
Ltac fields :=
  cbn [fst snd self clock stderr dropped encoder_rejects command process _request_id
       stdin stdin_broken_at stdin_room_at stdout read_ahead sigterm_exit calls
       set_stdin set_stdout add_call set_process set_request_id set_clock
       print_stderr drop_handle] in *.

(** *** The read loop *)

Lemma read_loop_expired (ahead : list (Z * py string) -> nat) (start_time now : Z)
    (out : list (Z * py string)) :
  start_time + timeout <= now ->
  read_loop ahead start_time now out = (Raise TimeoutError, now, out).
Proof.
  intros H. destruct out as [|[t l] rest]; cbn [read_loop];
    destruct (Z.leb_spec (timeout - (now - start_time)) 0); try lia; reflexivity.
Qed.

Lemma read_loop_silent (ahead : list (Z * py string) -> nat) (start_time now : Z) :
  now < start_time + timeout ->
  read_loop ahead start_time now [] = (Raise TimeoutError, start_time + timeout, []).
Proof.
  intros H. cbn [read_loop].
  destruct (Z.leb_spec (timeout - (now - start_time)) 0); try lia.
  f_equal. f_equal. lia.
Qed.

Lemma read_loop_late (ahead : list (Z * py string) -> nat) (start_time now t : Z)
    (read : py string) (rest : list (Z * py string)) :
  now < start_time + timeout ->
  start_time + timeout <= t ->
  read_loop ahead start_time now ((t, read) :: rest)
  = (Raise TimeoutError, start_time + timeout, abandon_read ahead ((t, read) :: rest)).
Proof.
  intros H1 H2. cbn [read_loop].
  destruct (Z.leb_spec (timeout - (now - start_time)) 0); try lia.
  destruct (Z.leb_spec (timeout - (now - start_time)) (Z.max now t - now)); try lia.
  f_equal. f_equal. lia.
Qed.

Lemma read_loop_eof (ahead : list (Z * py string) -> nat) (start_time now t : Z)
    (rest : list (Z * py string)) :
  now < start_time + timeout ->
  t < start_time + timeout ->
  read_loop ahead start_time now ((t, Ok "") :: rest)
  = (Ok None, Z.max now t, (t, Ok "") :: rest).
Proof.
  intros H1 H2. cbn [read_loop].
  destruct (Z.leb_spec (timeout - (now - start_time)) 0); try lia.
  destruct (Z.leb_spec (timeout - (now - start_time)) (Z.max now t - now)); try lia.
  reflexivity.
Qed.

(** A read that raises ends the loop with what it raised. *)
Lemma read_loop_raise (ahead : list (Z * py string) -> nat) (start_time now t : Z)
    (e : exn) (rest : list (Z * py string)) :
  now < start_time + timeout ->
  t < start_time + timeout ->
  read_loop ahead start_time now ((t, Raise e) :: rest) = (Raise e, Z.max now t, rest).
Proof.
  intros H1 H2. cbn [read_loop].
  destruct (Z.leb_spec (timeout - (now - start_time)) 0); try lia.
  destruct (Z.leb_spec (timeout - (now - start_time)) (Z.max now t - now)); try lia.
  reflexivity.
Qed.

Lemma startswith_nonempty (s : string) :
  startswith s "{" = true -> String.eqb s "" = false.
Proof. destruct s; simpl; [discriminate | reflexivity]. Qed.

Lemma read_loop_line (ahead : list (Z * py string) -> nat) (start_time now t : Z)
    (line : string) (rest : list (Z * py string)) :
  now < start_time + timeout ->
  t < start_time + timeout ->
  line <> "" ->
  read_loop ahead start_time now ((t, Ok line) :: rest)
  = match decode_line line with
    | Ok (Some v) => (Ok (Some v), Z.max now t, rest)
    | Ok None => read_loop ahead start_time (Z.max now t) rest
    | Raise e => (Raise e, Z.max now t, rest)
    end.
Proof.
  intros H1 H2 Hl. cbn [read_loop].
  destruct (Z.leb_spec (timeout - (now - start_time)) 0); try lia.
  destruct (Z.leb_spec (timeout - (now - start_time)) (Z.max now t - now)); try lia.
  destruct (String.eqb_spec line ""); [contradiction|].
  unfold decode_line.
  destruct (startswith (strip line) "{") eqn:Hs.
  - rewrite (startswith_nonempty _ Hs).
    destruct (json_loads (strip line)) as [v|[]]; reflexivity.
  - destruct (String.eqb (strip line) ""); reflexivity.
Qed.

Lemma decode_line_nonempty (line : string) (v : json) :
  decode_line line = Ok (Some v) -> line <> "".
Proof. intros H ->. discriminate H. Qed.

Lemma decode_line_candidate (line : string) (v : json) :
  decode_line line = Ok (Some v) ->
  strip line <> "" /\ startswith (strip line) "{" = true /\ json_loads (strip line) = Ok v.
Proof.
  unfold decode_line. destruct (startswith (strip line) "{") eqn:Hs; [|discriminate].
  intros H. split; [intros E; rewrite E in Hs; discriminate Hs|]. split; [reflexivity|].
  destruct (json_loads (strip line)) as [v'|[]]; try discriminate H.
  injection H as ->. reflexivity.
Qed.

(** The three ways in which a line is passed over. *)
Lemma discarded_cases (line : string) :
  discarded line
  <-> line <> ""
      /\ (strip line = "" \/ startswith (strip line) "{" = false
          \/ json_loads (strip line) = Raise JSONDecodeError).
Proof.
  unfold discarded, decode_line. split; intros [Hl H]; (split; [exact Hl|]).
  - destruct (startswith (strip line) "{"); [|right; left; reflexivity].
    destruct (json_loads (strip line)) as [v|[]]; try discriminate H.
    right; right; reflexivity.
  - destruct H as [E | [E | E]].
    + rewrite E. reflexivity.
    + rewrite E. reflexivity.
    + rewrite E. destruct (startswith (strip line) "{"); reflexivity.
Qed.

(** The loop passes over any run of discarded lines that arrive in time. *)
Lemma read_loop_noise (ahead : list (Z * py string) -> nat) (start_time : Z)
    (noise : list (Z * string)) (out : list (Z * py string)) :
  forall now,
    now < start_time + timeout ->
    Forall (fun e => fst e < start_time + timeout /\ discarded (snd e)) noise ->
    exists now', now <= now' < start_time + timeout
                 /\ read_loop ahead start_time now (lines noise ++ out)
                    = read_loop ahead start_time now' out.
Proof.
  induction noise as [|[t l] noise IH]; intros now Hnow Hall.
  - exists now. split; [lia | reflexivity].
  - inversion Hall as [|e es [Ht [Hl Hd]] Hrest]; subst. simpl in Ht, Hl, Hd.
    destruct (IH (Z.max now t)) as [now' [Hb Heq]]; [lia | assumption |].
    exists now'. split; [lia|].
    cbn [lines map app fst snd]. fold (lines noise).
    rewrite read_loop_line by assumption.
    rewrite Hd. exact Heq.
Qed.

(** Whatever the loop returns was decoded from a line of the stream. *)
Lemma read_loop_returns (ahead : list (Z * py string) -> nat) (start_time : Z)
    (out : list (Z * py string)) :
  forall now v now' rest,
    read_loop ahead start_time now out = (Ok (Some v), now', rest) ->
    exists t line, In (t, Ok line) out /\ line <> "" /\ decode_line line = Ok (Some v).
Proof.
  induction out as [|[t [l|e]] out IH]; intros now v now' rest H.
  - cbn [read_loop] in H.
    destruct (timeout - (now - start_time) <=? 0); discriminate H.
  - destruct (Z.leb_spec (start_time + timeout) now).
    + rewrite read_loop_expired in H by assumption. discriminate H.
    + destruct (Z.leb_spec (start_time + timeout) t).
      * rewrite read_loop_late in H by assumption. discriminate H.
      * destruct (String.eqb_spec l "") as [->|Hl].
        -- rewrite read_loop_eof in H by assumption. discriminate H.
        -- rewrite read_loop_line in H by assumption.
           destruct (decode_line l) as [[v'|]|e] eqn:Hd.
           ++ injection H as -> _ _. exists t, l. split; [left; reflexivity|]. split; assumption.
           ++ destruct (IH _ _ _ _ H) as [t' [l' [Hin Hrest]]].
              exists t', l'. split; [right; assumption | assumption].
           ++ discriminate H.
  - destruct (Z.leb_spec (start_time + timeout) now).
    + rewrite read_loop_expired in H by assumption. discriminate H.
    + destruct (Z.leb_spec (start_time + timeout) t).
      * rewrite read_loop_late in H by assumption. discriminate H.
      * rewrite read_loop_raise in H by assumption. discriminate H.
Qed.

(** A case analysis of one iteration of the loop, for proofs by induction on
    the stream. *)
Ltac loop_cases start_time now t l Hl :=
  destruct (Z.leb_spec (start_time + timeout) now);
  [ rewrite read_loop_expired by assumption
  | destruct (Z.leb_spec (start_time + timeout) t);
    [ rewrite read_loop_late by assumption
    | destruct l as [l|?e];
      [ destruct (String.eqb_spec l "") as [->|Hl];
        [ rewrite read_loop_eof by assumption
        | rewrite read_loop_line by assumption ]
      | rewrite read_loop_raise by assumption ] ] ].

(** The clock never runs backwards in the loop. *)
Lemma read_loop_clock (ahead : list (Z * py string) -> nat) (start_time : Z)
    (out : list (Z * py string)) :
  forall now, now <= snd (fst (read_loop ahead start_time now out)).
Proof.
  induction out as [|[t l] out IH]; intros now.
  - destruct (Z.leb_spec (start_time + timeout) now).
    + rewrite read_loop_expired by assumption. simpl. lia.
    + rewrite read_loop_silent by assumption. simpl. lia.
  - loop_cases start_time now t l Hl; try (simpl; lia).
    destruct (decode_line l) as [[v|]|e]; try (simpl; lia).
    specialize (IH (Z.max now t)). lia.
Qed.

(** Entered before its deadline, the loop ends by its deadline. *)
Lemma read_loop_deadline (ahead : list (Z * py string) -> nat) (start_time : Z)
    (out : list (Z * py string)) :
  forall now,
    now <= start_time + timeout ->
    snd (fst (read_loop ahead start_time now out)) <= start_time + timeout.
Proof.
  induction out as [|[t l] out IH]; intros now Hnow.
  - destruct (Z.leb_spec (start_time + timeout) now).
    + rewrite read_loop_expired by assumption. simpl. lia.
    + rewrite read_loop_silent by assumption. simpl. lia.
  - loop_cases start_time now t l Hl; try (simpl; lia).
    destruct (decode_line l) as [[v|]|e]; try (simpl; lia).
    apply IH. lia.
Qed.

Lemma abandon_read_suffix (ahead : list (Z * py string) -> nat)
    (out : list (Z * py string)) :
  exists consumed, out = (consumed ++ abandon_read ahead out)%list.
Proof.
  destruct out as [|[t read] out]; [exists []; reflexivity|].
  assert (H : exists consumed,
             (t, read) :: out = (consumed ++ skipn (ahead ((t, read) :: out)) out)%list).
  { exists ((t, read) :: firstn (ahead ((t, read) :: out)) out).
    cbn [app]. rewrite firstn_skipn. reflexivity. }
  cbn [abandon_read]. destruct read as [[|c s]|e]; try exact H.
  exists []. reflexivity.
Qed.

(** The loop only ever takes reads from the front of the stream. *)
Lemma read_loop_suffix (ahead : list (Z * py string) -> nat) (start_time : Z)
    (out : list (Z * py string)) :
  forall now, exists consumed,
    out = (consumed ++ snd (read_loop ahead start_time now out))%list.
Proof.
  induction out as [|[t l] out IH]; intros now.
  - exists []. destruct (Z.leb_spec (start_time + timeout) now).
    + rewrite read_loop_expired by assumption. reflexivity.
    + rewrite read_loop_silent by assumption. reflexivity.
  - loop_cases start_time now t l Hl.
    + exists []. reflexivity.
    + apply abandon_read_suffix.
    + exists []. reflexivity.
    + destruct (decode_line l) as [[v|]|e].
      * exists [(t, Ok l)]. reflexivity.
      * destruct (IH (Z.max now t)) as [consumed Hc].
        exists ((t, Ok l) :: consumed). simpl. f_equal. exact Hc.
      * exists [(t, Ok l)]. reflexivity.
    + exists [(t, Raise e)]. reflexivity.
Qed.

(** *** [_request] on a live handle *)

Lemma write_flush_writable (p : Popen) (now : Z) (line : string) :
  writable p now = true ->
  write_flush p now line = (Ok (set_stdin p (stdin p ++ [line])), write_done p now).
Proof.
  unfold writable, write_flush. destruct (stdin_broken_at p) as [t|]; [|reflexivity].
  destruct (t <=? write_done p now); [discriminate | reflexivity].
Qed.

Lemma write_flush_broken (p : Popen) (now : Z) (line : string) :
  writable p now = false ->
  write_flush p now line = (Raise BrokenPipeError, write_failed p now).
Proof.
  unfold writable, write_flush, write_failed.
  destruct (stdin_broken_at p) as [t|]; [|discriminate].
  destruct (t <=? write_done p now); [reflexivity | discriminate].
Qed.

(** A write ends no earlier than it is issued, and a failed write no later
    than the pipe would have had room. *)
Lemma write_done_later (p : Popen) (now : Z) : now <= write_done p now.
Proof. unfold write_done. lia. Qed.

Lemma write_failed_bounds (p : Popen) (now : Z) :
  writable p now = false -> now <= write_failed p now <= write_done p now.
Proof.
  unfold writable, write_failed. destruct (stdin_broken_at p) as [t|]; [|discriminate].
  pose proof (write_done_later p now).
  destruct (Z.leb_spec t (write_done p now)); [lia | discriminate].
Qed.

Lemma encodable_shallow (w : World) (params : json) :
  shallow_text 2 params = true -> encode_error w params = None.
Proof. unfold encode_error. intros ->. reflexivity. Qed.

Lemma encode_error_frame (w w' : World) (params : json) :
  encoder_rejects w' = encoder_rejects w ->
  encode_error w' params = encode_error w params.
Proof. unfold encode_error. intros ->. reflexivity. Qed.

Lemma _request_live (method : string) (params : json) (w : World) (p : Popen) :
  process (self w) = Some p ->
  encode_error w params = None ->
  writable p (clock w) = true ->
  _request method params w
  = after_read w p (_request_id (self w) + 1)
      (request_line (_request_id (self w) + 1) (method, params))
      (read_loop (read_ahead p) (write_done p (clock w)) (write_done p (clock w))
         (stdout p)).
Proof.
  intros Hp He Hw. unfold _request, after_read, request_line, dumps. rewrite Hp.
  rewrite (encode_error_frame w (set_request_id w (_request_id (self w) + 1)) params eq_refl).
  rewrite He. cbn [clock set_request_id fst snd].
  rewrite write_flush_writable by assumption.
  cbn [clock set_clock stdout read_ahead set_stdin].
  destruct (read_loop (read_ahead p) (write_done p (clock w)) (write_done p (clock w))
              (stdout p)) as [[r now] rest].
  reflexivity.
Qed.

(** The encoder rejects the request: the id is consumed, nothing is written
    or read, and the second [except] clause reports what was raised. *)
Lemma _request_unencodable (method : string) (params : json) (w : World) (p : Popen)
    (e : exn) :
  process (self w) = Some p ->
  encode_error w params = Some e ->
  _request method params w
  = request_except (Raise e) (set_request_id w (_request_id (self w) + 1)).
Proof.
  intros Hp He. unfold _request, dumps. rewrite Hp.
  rewrite (encode_error_frame w (set_request_id w (_request_id (self w) + 1)) params eq_refl).
  rewrite He. reflexivity.
Qed.

Lemma _request_broken (method : string) (params : json) (w : World) (p : Popen) :
  process (self w) = Some p ->
  encode_error w params = None ->
  writable p (clock w) = false ->
  _request method params w
  = (None, print_stderr (set_clock (set_request_id w (_request_id (self w) + 1))
                           (write_failed p (clock w)))
             (RequestError BrokenPipeError)).
Proof.
  intros Hp He Hw. unfold _request, dumps. rewrite Hp.
  rewrite (encode_error_frame w (set_request_id w (_request_id (self w) + 1)) params eq_refl).
  rewrite He. cbn [clock set_request_id].
  rewrite write_flush_broken by assumption. reflexivity.
Qed.

Lemma _request_no_process (method : string) (params : json) (w : World) :
  process (self w) = None -> _request method params w = (None, w).
Proof. intros Hp. unfold _request. rewrite Hp. reflexivity. Qed.

(** The world a failed [try] block leaves: only the diagnostic is added. *)
Lemma request_except_raise (e : exn) (w : World) :
  exists d, request_except (Raise e) w = (None, print_stderr w d).
Proof. destruct e; eexists; reflexivity. Qed.

(** The paths of [_request] on a live handle. *)
Ltac request_paths method params w p Hp :=
  let e := fresh "e" in
  let He := fresh "He" in
  let Hw := fresh "Hw" in
  let d := fresh "d" in
  let Hd := fresh "Hd" in
  destruct (encode_error w params) as [e|] eqn:He;
  [ rewrite (_request_unencodable method params w p e Hp He);
    destruct (request_except_raise e (set_request_id w (_request_id (self w) + 1)))
      as [d Hd];
    rewrite Hd; clear Hd
  | destruct (writable p (clock w)) eqn:Hw;
    [ rewrite (_request_live method params w p Hp He Hw)
    | rewrite (_request_broken method params w p Hp He Hw) ] ].

(** One call on a live handle: the counter advances by one whatever happens,
    the handle stays, the clock does not run backwards, and the wire gains
    the request line exactly when the encoder took the request and the pipe
    took the write. *)
Lemma _request_step (method : string) (params : json) (w : World) (p : Popen) :
  process (self w) = Some p ->
  exists p',
    process (self (snd (_request method params w))) = Some p'
    /\ stdin_broken_at p' = stdin_broken_at p
    /\ stdin_room_at p' = stdin_room_at p
    /\ clock w <= clock (snd (_request method params w))
    /\ _request_id (self (snd (_request method params w))) = _request_id (self w) + 1
    /\ encoder_rejects (snd (_request method params w)) = encoder_rejects w
    /\ stdin p'
       = (stdin p ++ if encodable w params && writable p (clock w)
                     then [request_line (_request_id (self w) + 1) (method, params)]
                     else [])%list.
Proof.
  intros Hp. unfold encodable. request_paths method params w p Hp.
  - exists p. cbn. rewrite Hp, app_nil_r. repeat split. lia.
  - pose proof (read_loop_clock (read_ahead p) (write_done p (clock w)) (stdout p)
                  (write_done p (clock w))) as Hc.
    pose proof (write_done_later p (clock w)) as Hd.
    destruct (read_loop (read_ahead p) (write_done p (clock w)) (write_done p (clock w))
                (stdout p)) as [[o n] r].
    simpl in Hc. eexists.
    destruct o as [resp|[]]; cbn; repeat split; lia.
  - pose proof (write_failed_bounds p (clock w) Hw) as Hf.
    exists p. cbn. rewrite Hp, app_nil_r. repeat split. lia.
Qed.

(** *** The correlator *)

(** A call whose stream holds discarded lines and then a decodable one, all
    in time: the world it leaves and the message it returns. *)
Lemma _request_first_decoded
    (method : string) (params : json) (w : World) (p : Popen)
    (noise : list (Z * string)) (t : Z) (line : string)
    (rest : list (Z * py string)) (v : json) :
  process (self w) = Some p ->
  encode_error w params = None ->
  writable p (clock w) = true ->
  stdout p = (lines noise ++ (t, Ok line) :: rest)%list ->
  Forall (fun e => fst e < write_done p (clock w) + timeout /\ discarded (snd e)) noise ->
  t < write_done p (clock w) + timeout ->
  decode_line line = Ok (Some v) ->
  exists now,
    _request method params w
    = (Some v,
       set_clock
         (set_process (set_request_id w (_request_id (self w) + 1))
            (Some (set_stdout
                     (set_stdin p (stdin p ++ [request_line (_request_id (self w) + 1)
                                                 (method, params)]))
                     rest)))
         now).
Proof.
  intros Hp He Hw Hout Hnoise Ht Hd.
  rewrite (_request_live _ _ _ _ Hp He Hw), Hout.
  destruct (read_loop_noise (read_ahead p) (write_done p (clock w)) noise
              ((t, Ok line) :: rest) (write_done p (clock w)))
    as [now' [Hb Heq]]; [unfold timeout; lia | assumption |].
  rewrite Heq, read_loop_line, Hd;
    [| lia | assumption | exact (decode_line_nonempty _ _ Hd)].
  eexists. reflexivity.
Qed.

(** C1 (amended): when the request was encoded and written, a call through
    [_request] returns the first line of the child's stdout that, once
    trimmed, starts with an opening brace and decodes, provided it arrives
    within the timeout, which runs from the instant the request was written,
    and every line before it is passed over: blank, not starting with an
    opening brace, or rejected by the decoder with [JSONDecodeError].
    Nothing is printed.  The [id] member of the message plays no part: the
    request on the wire carries the next id, and the message is returned
    whatever [id] it bears. *)
Theorem request_returns_first_decoded
    (method : string) (params : json) (w : World) (p : Popen)
    (noise : list (Z * string)) (t : Z) (line : string)
    (rest : list (Z * py string)) (v : json) :
  process (self w) = Some p ->
  encode_error w params = None ->
  writable p (clock w) = true ->
  stdout p = (lines noise ++ (t, Ok line) :: rest)%list ->
  let start_time := write_done p (clock w) in
  Forall (fun e => fst e < start_time + timeout
                   /\ snd e <> ""
                   /\ (strip (snd e) = "" \/ startswith (strip (snd e)) "{" = false
                       \/ json_loads (strip (snd e)) = Raise JSONDecodeError)) noise ->
  t < start_time + timeout ->
  startswith (strip line) "{" = true ->
  json_loads (strip line) = Ok v ->
  let r := _request method params w in
  fst r = Some v
  /\ stderr (snd r) = stderr w
  /\ wire (snd r)
     = (wire w ++ [request_line (_request_id (self w) + 1) (method, params)])%list
  /\ exists p', process (self (snd r)) = Some p' /\ stdout p' = rest.
Proof.
  intros Hp He Hw Hout start_time Hnoise Ht Hs Hv r. subst r start_time.
  assert (Hd : decode_line line = Ok (Some v))
    by (unfold decode_line; rewrite Hs, Hv; reflexivity).
  assert (Hnoise' : Forall (fun e => fst e < write_done p (clock w) + timeout
                                     /\ discarded (snd e)) noise).
  { eapply Forall_impl; [|exact Hnoise]. intros e [H1 H2].
    split; [exact H1 | apply discarded_cases; exact H2]. }
  destruct (_request_first_decoded method params _ _ _ _ _ _ _ Hp He Hw Hout Hnoise' Ht Hd)
    as [now ->].
  unfold wire. rewrite Hp. cbn. repeat split. eexists. split; reflexivity.
Qed.

Lemma writable_earlier (p : Popen) (t t' : Z) :
  t <= t' -> writable p t' = true -> writable p t = true.
Proof.
  unfold writable, write_done. destruct (stdin_broken_at p) as [b|]; [|reflexivity].
  intros Hle.
  destruct (Z.leb_spec b (Z.max t' (stdin_room_at p))),
           (Z.leb_spec b (Z.max t (stdin_room_at p))); simpl; try lia; congruence.
Qed.

(** A call on a child that closed its stdout before the deadline. *)
Lemma _request_eof (method : string) (params : json) (w : World) (p : Popen)
    (t : Z) (rest : list (Z * py string)) :
  process (self w) = Some p ->
  stdout p = (t, Ok "") :: rest ->
  t < write_done p (clock w) + timeout ->
  let r := _request method params w in
  fst r = None
  /\ _request_id (self (snd r)) = _request_id (self w) + 1
  /\ encoder_rejects (snd r) = encoder_rejects w
  /\ exists p',
       process (self (snd r)) = Some p'
       /\ stdout p' = stdout p
       /\ stdin_broken_at p' = stdin_broken_at p
       /\ stdin_room_at p' = stdin_room_at p
       /\ clock (snd r) = eof_clock w p params t.
Proof.
  intros Hp Hout Ht r. subst r. unfold eof_clock, encodable.
  request_paths method params w p Hp.
  - cbn. rewrite Hp. repeat split. exists p. repeat split.
  - rewrite Hout, read_loop_eof by (unfold timeout; lia || assumption).
    cbn. repeat split. eexists. split; [reflexivity|]. cbn. repeat split.
  - cbn. rewrite Hp. repeat split. exists p. repeat split.
Qed.


(** *** Request ids *)

Lemma writable_later (p : Popen) (t t' : Z) :
  t <= t' -> writable p t = false -> writable p t' = false.
Proof.
  intros Hle Hf. destruct (writable p t') eqn:E; [|reflexivity].
  rewrite (writable_earlier p t t' Hle E) in Hf. discriminate Hf.
Qed.

Lemma ids_from_length (first : Z) (n : nat) : List.length (ids_from first n) = n.
Proof. revert first. induction n; intros; simpl; [reflexivity | now rewrite IHn]. Qed.

Lemma ids_from_bounds (n : nat) :
  forall first i, In i (ids_from first n) -> first <= i < first + Z.of_nat n.
Proof.
  induction n as [|n IH]; intros first i Hin; [destruct Hin|].
  destruct Hin as [<- | Hin]; [lia|]. apply IH in Hin. lia.
Qed.

Lemma encoded_calls_frame (w w' : World) (calls : list (Z * (string * json))) :
  encoder_rejects w' = encoder_rejects w ->
  forall first, encoded_calls w' first calls = encoded_calls w first calls.
Proof.
  intros H. induction calls as [|[idle call] calls IH]; intros first; [reflexivity|].
  cbn [encoded_calls]. unfold encodable.
  rewrite (encode_error_frame w w' _ H), IH. reflexivity.
Qed.

(** When the encoder takes every request, the calls that reach the wire are
    all of them, numbered consecutively. *)
Lemma encoded_calls_all (w : World) (calls : list (Z * (string * json))) :
  forallb (fun c => encodable w (snd (snd c))) calls = true ->
  forall first,
    map fst (encoded_calls w first calls) = ids_from first (List.length calls).
Proof.
  induction calls as [|[idle call] calls IH]; intros Hall first; [reflexivity|].
  cbn [forallb fst snd] in Hall. apply andb_prop in Hall. destruct Hall as [H1 H2].
  cbn [encoded_calls List.length ids_from]. rewrite H1. cbn [app map fst].
  rewrite (IH H2). reflexivity.
Qed.

(** The wire after a session, for any value of the counter at its start:
    the requests written are calls of the session, each under the number of
    its call, in increasing order. *)
Lemma run_requests_wire (calls : list (Z * (string * json))) :
  forall w p,
    process (self w) = Some p ->
    exists (written : list (Z * (string * json))) p',
      process (self (snd (run_requests calls w))) = Some p'
      /\ stdin_broken_at p' = stdin_broken_at p
      /\ encoder_rejects (snd (run_requests calls w)) = encoder_rejects w
      /\ stdin p'
         = (stdin p ++ map (fun ic => request_line (fst ic) (snd ic)) written)%list
      /\ _request_id (self (snd (run_requests calls w)))
         = _request_id (self w) + Z.of_nat (List.length calls)
      /\ StronglySorted Z.lt (map fst written)
      /\ Forall (fun ic => _request_id (self w) < fst ic
                                <= _request_id (self w) + Z.of_nat (List.length calls)
                           /\ In (snd ic) (map snd calls)
                           /\ encodable w (snd (snd ic)) = true) written
      /\ (stdin_broken_at p = None ->
          written = encoded_calls w (_request_id (self w) + 1) calls).
Proof.
  induction calls as [|[idle [method params]] calls IH]; intros w p Hp.
  - exists [], p. cbn. rewrite app_nil_r, Z.add_0_r. repeat split; trivial; constructor.
  - cbn [run_requests].
    set (w0 := set_clock w (clock w + Z.max 0 idle)).
    assert (Hp0 : process (self w0) = Some p) by exact Hp.
    destruct (_request_step method params w0 p Hp0)
      as [p1 [Hp1 [Hb1 [_ [Hc1 [Hid1 [He1 Hin1]]]]]]].
    destruct (_request method params w0) as [response w1].
    cbn [snd] in Hp1, Hc1, Hid1, He1.
    destruct (IH w1 p1 Hp1)
      as [written [p2 [Hp2 [Hb2 [He2 [Hin2 [Hid2 [Hsorted [Hall Hexact]]]]]]]]].
    destruct (run_requests calls w1) as [responses w2].
    cbn [snd] in *.
    assert (Hidw : _request_id (self w0) = _request_id (self w)) by reflexivity.
    assert (Hew : encoder_rejects w0 = encoder_rejects w) by reflexivity.
    assert (Henc : encodable w0 params = encodable w params)
      by (unfold encodable; rewrite (encode_error_frame w w0 params Hew); reflexivity).
    rewrite Hidw in Hid1, Hin1. rewrite Hid1 in Hall, Hid2, Hexact.
    assert (Hall' : Forall (fun ic => _request_id (self w) + 1 < fst ic
                                      <= _request_id (self w)
                                         + Z.of_nat (List.length ((idle, (method, params)) :: calls))
                                      /\ In (snd ic) (map snd ((idle, (method, params)) :: calls))
                                      /\ encodable w (snd (snd ic)) = true)
                           written).
    { eapply Forall_impl; [|exact Hall]. intros ic [Hr [Hi Hc]].
      cbn [List.length map snd]. split; [lia|]. split; [right; exact Hi|].
      unfold encodable in *.
      rewrite <- (encode_error_frame w w1 _ ltac:(congruence)). exact Hc. }
    exists ((if encodable w0 params && writable p (clock w0)
             then [(_request_id (self w) + 1, (method, params))] else []) ++ written)%list, p2.
    split; [exact Hp2|]. split; [congruence|]. split; [congruence|].
    split.
    { rewrite Hin2, Hin1, map_app, app_assoc. f_equal. f_equal.
      destruct (encodable w0 params && writable p (clock w0)); reflexivity. }
    split; [rewrite Hid2; cbn [List.length]; lia|].
    split.
    { destruct (encodable w0 params && writable p (clock w0)); cbn [app map fst];
        [|exact Hsorted].
      constructor; [exact Hsorted|].
      apply Forall_map. eapply Forall_impl; [|exact Hall']. intros ic [Hr _]. lia. }
    split.
    { apply Forall_app. split.
      - destruct (encodable w0 params && writable p (clock w0)) eqn:Hsent;
          constructor; [|constructor].
        apply andb_prop in Hsent. destruct Hsent as [Hsent _].
        cbn [fst snd List.length map]. split; [lia|]. split; [left; reflexivity|].
        rewrite <- Henc. exact Hsent.
      - eapply Forall_impl; [|exact Hall']. intros ic [Hr Hi]. split; [lia | exact Hi]. }
    intros Hnone. cbn [encoded_calls snd].
    rewrite (Hexact ltac:(congruence)).
    rewrite (encoded_calls_frame w w1 calls ltac:(congruence)).
    rewrite Henc. unfold writable. rewrite Hnone, andb_true_r. reflexivity.
Qed.

(** C4 (amended): in a session that starts with the counter as [__init__]
    leaves it, the counter advances once per call whatever the call returned,
    and a request that reaches the wire carries the number of its call as its
    id.  So the ids read off the wire strictly increase, none is used twice,
    and each lies between 1 and the number of calls.  While the pipe takes
    writes they are the numbers of the calls the encoder took: exactly
    1, 2, 3, ... when it took them all.  The ids are read off the wire with
    the decoder, which is taken to decode the request lines the encoder
    produces in the session back to the messages they encode. *)
Theorem request_ids_follow_the_counter
    (calls : list (Z * (string * json))) (w : World) (p : Popen) :
  process (self w) = Some p ->
  _request_id (self w) = _request_id (__init__ (command (self w))) ->
  (forall i call,
      1 <= i <= Z.of_nat (List.length calls) ->
      In call (map snd calls) ->
      encodable w (snd call) = true ->
      json_loads (strip (request_line i call))
      = Ok (request_message i (fst call) (snd call))) ->
  let s := run_requests calls w in
  exists (ids : list Z) (new : list string) p',
    process (self (snd s)) = Some p'
    /\ stdin p' = (stdin p ++ new)%list
    /\ map wire_id new = map (fun i => Some (JInt i)) ids
    /\ StronglySorted Z.lt ids
    /\ Forall (fun i => 1 <= i <= Z.of_nat (List.length calls)) ids
    /\ (stdin_broken_at p = None -> ids = map fst (encoded_calls w 1 calls))
    /\ (stdin_broken_at p = None ->
        forallb (fun c => encodable w (snd (snd c))) calls = true ->
        ids = ids_from 1 (List.length calls))
    /\ _request_id (self (snd s)) = Z.of_nat (List.length calls).
Proof.
  intros Hp Hid Hcodec s. subst s.
  destruct (run_requests_wire calls w p Hp)
    as [written [p' [Hp' [_ [_ [Hin [Hid' [Hsorted [Hall Hexact]]]]]]]]].
  cbn in Hid. rewrite Hid in Hid', Hall, Hexact. cbn in Hid', Hexact.
  exists (map fst written), (map (fun ic => request_line (fst ic) (snd ic)) written), p'.
  split; [exact Hp'|]. split; [exact Hin|].
  split.
  { rewrite !map_map. apply map_ext_in. intros [i call] Hic.
    rewrite Forall_forall in Hall. destruct (Hall _ Hic) as [Hr [Hc Henc]].
    cbn [fst snd] in *. unfold wire_id.
    rewrite (Hcodec i call ltac:(lia) Hc Henc). reflexivity. }
  split; [exact Hsorted|].
  split.
  { apply Forall_map. eapply Forall_impl; [|exact Hall]. intros ic [Hr _]. lia. }
  split; [intros Hnone; rewrite (Hexact Hnone); reflexivity|].
  split; [|exact Hid'].
  intros Hnone Henc. rewrite (Hexact Hnone). apply encoded_calls_all. exact Henc.
Qed.

(** *** Shutdown *)

(** What [stop] does to the handle, by cases on the child's answer to
    SIGTERM: the graceful branch reaps once and does not kill; the forced
    branch kills once and does not reap. *)
Lemma stop_branches (w : World) (p : Popen) :
  process (self w) = Some p ->
  calls p = [] ->
  let graceful := match sigterm_exit p with
                  | Some d => d <=? grace
                  | None => false
                  end in
  process (self (stop w)) = None
  /\ exists p', dropped (stop w) = (dropped w ++ [p'])%list
       /\ calls p' = (if graceful
                      then [Terminate; WaitFor grace true]
                      else [Terminate; WaitFor grace false; Kill])
       /\ reaps p' = (if graceful then 1%nat else 0%nat)
       /\ kills p' = (if graceful then 0%nat else 1%nat).
Proof.
  intros Hp Hc graceful. subst graceful. unfold stop. rewrite Hp.
  unfold wait, exit_delay, terminate, kill, add_call. fields. rewrite Hc. cbn [app existsb is_kill is_terminate orb].
  destruct (sigterm_exit p) as [d|].
  - destruct (d <=? grace); cbn; (split; [reflexivity|]); eexists; repeat split.
  - cbn. split; [reflexivity|]. eexists. repeat split.
Qed.

(** *** The handshake *)

Lemma _notify_live (method : string) (params : json) (w : World) (p : Popen) :
  process (self w) = Some p ->
  encode_error w params = None ->
  writable p (clock w) = true ->
  _notify method params w
  = set_process (set_clock w (write_done p (clock w)))
      (Some (set_stdin p (stdin p ++ [notification_line method params]))).
Proof.
  intros Hp He Hw. unfold _notify, dumps, notification_line. rewrite Hp, He.
  rewrite write_flush_writable by assumption. reflexivity.
Qed.

Lemma _notify_unencodable (method : string) (params : json) (w : World) (p : Popen)
    (e : exn) :
  process (self w) = Some p ->
  encode_error w params = Some e ->
  _notify method params w = print_stderr w (NotificationError e).
Proof. intros Hp He. unfold _notify, dumps. rewrite Hp, He. reflexivity. Qed.

Lemma _notify_broken (method : string) (params : json) (w : World) (p : Popen) :
  process (self w) = Some p ->
  encode_error w params = None ->
  writable p (clock w) = false ->
  _notify method params w
  = print_stderr (set_clock w (write_failed p (clock w)))
      (NotificationError BrokenPipeError).
Proof.
  intros Hp He Hw. unfold _notify, dumps. rewrite Hp, He.
  rewrite write_flush_broken by assumption. reflexivity.
Qed.

(** C7: [start] reports success exactly when the response to [initialize] is
    there and contains [result]; for a response object that is the presence
    of the [result] member.  On success the world is the one [_notify] leaves
    when called after the request returned; on failure nothing more reaches
    the wire.  While the pipe takes writes, the wire holds the request line
    and then, exactly on success, the [notifications/initialized] line.  When
    the process cannot be spawned, [start] reports failure and writes
    nothing. *)
Theorem start_reports_result_and_notifies (p : Popen) (w : World) :
  let request := _request "initialize" initialize_params (install p w) in
  let started := start (Ok p) w in
  (fst started = true
   <-> exists v, fst request = Some v /\ truthy v = true /\ py_in "result" v = Ok true)
  /\ (forall d, fst request = Some (JDict d) ->
                (fst started = true <-> exists x, dict_get "result" d = Some x))
  /\ (fst started = true ->
      snd started = _notify "notifications/initialized" (JDict []) (snd request))
  /\ (fst started = false -> wire (snd started) = wire (snd request))
  /\ (stdin_broken_at p = None ->
      wire (snd started)
      = (stdin p
         ++ [request_line (_request_id (self w) + 1) ("initialize", initialize_params)]
         ++ if fst started
            then [notification_line "notifications/initialized" (JDict [])]
            else [])%list)
  /\ (forall e, start (Raise e) w = (false, print_stderr w (StartFailed e))).
Proof.
  intros request started. subst request started.
  unfold start. fold (install p w).
  assert (Hstep := _request_step "initialize" initialize_params (install p w) p eq_refl).
  destruct Hstep as [p1 [Hp1 [Hb1 [_ [_ [_ [_ Hin1]]]]]]].
  assert (Hid : _request_id (self (install p w)) = _request_id (self w))
    by (unfold install; destruct (process (self w)); reflexivity).
  rewrite Hid in Hin1.
  change (encodable (install p w) initialize_params) with true in Hin1.
  cbn [andb] in Hin1.
  destruct (_request "initialize" initialize_params (install p w)) as [response w1].
  cbn [fst snd] in *.
  split; [|split; [|split; [|split; [|split]]]].
  - unfold and_in. destruct response as [v|].
    + destruct (truthy v) eqn:Ht.
      * destruct (py_in "result" v) as [[|]|e] eqn:Hin; cbn; split;
          try discriminate;
          try reflexivity;
          try (intros _; exists v; repeat split; assumption);
          try (intros [v' [Hv [_ Hv']]]; injection Hv as <-; congruence).
      * cbn. split; [discriminate|].
        intros [v' [Hv [Hv' _]]]. injection Hv as <-. congruence.
    + cbn. split; [discriminate|]. intros [v' [Hv _]]. discriminate Hv.
  - intros d ->. unfold and_in. destruct d as [|kv d']; cbn [truthy].
    + cbn. split; [discriminate|]. intros [x Hx]. discriminate Hx.
    + set (d := kv :: d'). cbn [py_in].
      destruct (dict_get "result" d) as [x|]; cbn; split; try discriminate.
      * intros _. exists x. reflexivity.
      * reflexivity.
      * intros [x Hx]. discriminate Hx.
  - destruct (and_in response "result") as [[|]|e]; cbn; try discriminate. reflexivity.
  - destruct (and_in response "result") as [[|]|e]; cbn; try discriminate; reflexivity.
  - intros Hnone. unfold writable in Hin1. rewrite Hnone in Hin1.
    destruct (and_in response "result") as [[|]|e]; cbn [fst snd].
    + rewrite (_notify_live "notifications/initialized" (JDict []) w1 p1 Hp1
                 (encodable_shallow w1 (JDict []) eq_refl))
        by (unfold writable; rewrite Hb1, Hnone; reflexivity).
      unfold wire. fields. rewrite Hin1.
      rewrite <- app_assoc. reflexivity.
    + unfold wire. rewrite Hp1, Hin1. reflexivity.
    + unfold wire. fields. rewrite Hp1, Hin1. reflexivity.
  - reflexivity.
Qed.

(** *** The adapter for the model's tool-calling convention *)

(** C8: when every descriptor is an object with a [name], the conversion
    succeeds and yields one object per descriptor, in the same order, of the
    shape [{"type": "function", "function": {"name", "description",
    "parameters"}}], where the description is the descriptor's or the empty
    string, and the parameters are its [inputSchema] or
    [{"type": "object", "properties": {}}]. *)
Theorem convert_tools_shape (mcp_tools : list json) :
  Forall (fun tool => exists d name, tool = JDict d /\ dict_get "name" d = Some name)
         mcp_tools ->
  exists ollama_tools,
    convert_tools_to_ollama mcp_tools = Ok ollama_tools
    /\ List.length ollama_tools = List.length mcp_tools
    /\ forall i d name,
         nth_error mcp_tools i = Some (JDict d) ->
         dict_get "name" d = Some name ->
         nth_error ollama_tools i
         = Some (JDict
                   [("type", JStr "function");
                    ("function",
                     JDict
                       [("name", name);
                        ("description",
                         match dict_get "description" d with
                         | Some description => description
                         | None => JStr ""
                         end);
                        ("parameters",
                         match dict_get "inputSchema" d with
                         | Some schema => schema
                         | None => JDict [("type", JStr "object");
                                          ("properties", JDict [])]
                         end)])]).
Proof.
  induction 1 as [|tool tools [d [name [-> Hname]]] _ [ollama [Hconv [Hlen Hnth]]]].
  - exists []. repeat split. intros [|i] d name H; discriminate H.
  - cbn [convert_tools_to_ollama]. unfold convert_tool at 1.
    cbn [getitem py_get bind]. rewrite Hname, Hconv. cbn [bind].
    eexists. split; [reflexivity|]. split; [simpl; now rewrite Hlen|].
    intros [|i] d' name' Hi Hn'.
    + cbn in Hi. injection Hi as <-. rewrite Hname in Hn'. injection Hn' as <-.
      reflexivity.
    + cbn in Hi |- *. apply Hnth; assumption.
Qed.

(** *** Further properties of the transport *)

Lemma _request_clock (method : string) (params : json) (w : World) (p : Popen) :
  process (self w) = Some p ->
  clock w <= clock (snd (_request method params w)) <= write_done p (clock w) + timeout.
Proof.
  intros Hp. pose proof (write_done_later p (clock w)) as Hd.
  assert (Ht : 0 <= timeout) by (unfold timeout; lia).
  request_paths method params w p Hp.
  - cbn. lia.
  - pose proof (read_loop_clock (read_ahead p) (write_done p (clock w)) (stdout p)
                  (write_done p (clock w))) as Hlo.
    assert (Hhi := read_loop_deadline (read_ahead p) (write_done p (clock w)) (stdout p)
                     (write_done p (clock w)) ltac:(lia)).
    destruct (read_loop (read_ahead p) (write_done p (clock w)) (write_done p (clock w))
                (stdout p)) as [[o n] r].
    simpl in Hlo, Hhi.
    destruct o as [resp|[]]; unfold after_read; cbn; lia.
  - pose proof (write_failed_bounds p (clock w) Hw). cbn. lia.
Qed.

(** X1: a call through [_request] returns no later than 30 time units after
    the instant at which the pipe has room for its request line, whatever
    the child prints or fails to print, and the clock never runs backwards.
    The write itself has no timeout: the bound does not run from the instant
    the call is entered. *)
Theorem request_returns_by_deadline (method : string) (params : json) (w : World) :
  let r := _request method params w in
  clock w <= clock (snd r)
  /\ match process (self w) with
     | Some p => clock (snd r) <= write_done p (clock w) + timeout
     | None => clock (snd r) = clock w
     end.
Proof.
  intros r. subst r. destruct (process (self w)) as [p|] eqn:Hp.
  - pose proof (_request_clock method params w p Hp). split; lia.
  - rewrite (_request_no_process _ _ _ Hp). split; [cbn; lia | reflexivity].
Qed.

(** What a call leaves untouched on a live handle. *)
Lemma _request_frame
    (method : string) (params : json) (w : World) (p : Popen) :
  process (self w) = Some p ->
  exists p' consumed,
    process (self (snd (_request method params w))) = Some p'
    /\ stdout p = (consumed ++ stdout p')%list
    /\ (stdin p' = stdin p
        \/ stdin p' = (stdin p ++ [request_line (_request_id (self w) + 1)
                                     (method, params)])%list)
    /\ calls p' = calls p
    /\ sigterm_exit p' = sigterm_exit p
    /\ stdin_broken_at p' = stdin_broken_at p
    /\ dropped (snd (_request method params w)) = dropped w
    /\ command (self (snd (_request method params w))) = command (self w).
Proof.
  intros Hp. request_paths method params w p Hp.
  - exists p, []. cbn. repeat split; try assumption. left. reflexivity.
  - destruct (read_loop_suffix (read_ahead p) (write_done p (clock w)) (stdout p)
                (write_done p (clock w))) as [consumed Hc].
    destruct (read_loop (read_ahead p) (write_done p (clock w)) (write_done p (clock w))
                (stdout p)) as [[o n] r].
    simpl in Hc. eexists. exists consumed.
    destruct o as [resp|[]]; cbn; repeat split; try assumption; right; reflexivity.
  - exists p, []. cbn. repeat split; try assumption. left. reflexivity.
Qed.

(** X2: a call through [_request] on a live handle keeps the handle
    installed, sends it no signal, lets go of no handle, takes its reads from
    the front of the child's output in order, and adds at most its own
    request line at the end of the wire. *)
Theorem request_keeps_handle_and_order
    (method : string) (params : json) (w : World) (p : Popen) :
  process (self w) = Some p ->
  let w' := snd (_request method params w) in
  exists p' consumed,
    process (self w') = Some p'
    /\ stdout p = (consumed ++ stdout p')%list
    /\ (stdin p' = stdin p
        \/ stdin p' = (stdin p ++ [request_line (_request_id (self w) + 1)
                                     (method, params)])%list)
    /\ calls p' = calls p
    /\ sigterm_exit p' = sigterm_exit p
    /\ stdin_broken_at p' = stdin_broken_at p
    /\ dropped w' = dropped w
    /\ command (self w') = command (self w).
Proof. intros Hp w'. exact (_request_frame method params w p Hp). Qed.

(** X3: [_notify] consumes no request id, reads nothing, sends no signal
    and never raises.  With a live handle, when the encoder takes the
    notification and the pipe takes the write, the wire gains exactly the
    notification line and nothing is printed; when the encoder raises, or the
    write does, the error is printed and the wire is unchanged.  Without a
    handle nothing happens at all. *)
Theorem notify_effect (method : string) (params : json) (w : World) :
  let w' := _notify method params w in
  _request_id (self w') = _request_id (self w)
  /\ dropped w' = dropped w
  /\ (process (self w) = None -> w' = w)
  /\ (forall p,
         process (self w) = Some p ->
         exists p',
           process (self w') = Some p'
           /\ stdout p' = stdout p
           /\ calls p' = calls p
           /\ match encode_error w params with
              | Some e =>
                  stdin p' = stdin p
                  /\ stderr w' = (stderr w ++ [NotificationError e])%list
              | None =>
                  if writable p (clock w)
                  then stdin p' = (stdin p ++ [notification_line method params])%list
                       /\ stderr w' = stderr w
                  else stdin p' = stdin p
                       /\ stderr w'
                          = (stderr w ++ [NotificationError BrokenPipeError])%list
              end).
Proof.
  intros w'. subst w'.
  destruct (process (self w)) as [p|] eqn:Hp.
  - destruct (encode_error w params) as [e|] eqn:He.
    + rewrite (_notify_unencodable _ _ _ _ e Hp He). cbn. rewrite Hp.
      repeat split; try discriminate.
      intros p0 [= <-]. exists p. repeat split.
    + destruct (writable p (clock w)) eqn:Hw.
      * rewrite (_notify_live _ _ _ _ Hp He Hw). cbn.
        repeat split; try discriminate.
        intros p0 [= <-]. rewrite Hw. eexists. repeat split.
      * rewrite (_notify_broken _ _ _ _ Hp He Hw). cbn. rewrite Hp.
        repeat split; try discriminate.
        intros p0 [= <-]. rewrite Hw. exists p. repeat split.
  - unfold _notify. rewrite Hp.
    repeat split; try reflexivity. intros p0 H. discriminate H.
Qed.

Lemma stop_step (w : World) (p : Popen) :
  process (self w) = Some p ->
  exists (reaped : bool) p',
    process (self (stop w)) = None
    /\ dropped (stop w) = (dropped w ++ [p'])%list
    /\ calls p'
       = (calls p ++ Terminate :: WaitFor grace reaped
            :: if reaped then [] else [Kill])%list
    /\ (reaped = true <-> exists d, exit_delay (terminate p) = Some d /\ d <= grace)
    /\ stdin p' = stdin p
    /\ clock w <= clock (stop w) <= clock w + grace
    /\ _request_id (self (stop w)) = _request_id (self w)
    /\ stderr (stop w) = stderr w.
Proof.
  intros Hp. unfold stop. rewrite Hp. unfold wait.
  assert (Hg : grace = 5) by reflexivity.
  destruct (exit_delay (terminate p)) as [d|] eqn:Hd.
  - destruct (Z.leb_spec d grace).
    + exists true. eexists. unfold terminate, kill. fields.
      split; [reflexivity|]. split; [reflexivity|].
      fields. rewrite <- ?app_assoc. cbn [app]. split; [reflexivity|].
      split; [split; [intros _; exists d; split; [reflexivity | assumption] | reflexivity]|].
      split; [reflexivity|]. split; [lia|]. split; reflexivity.
    + exists false. eexists. unfold terminate, kill. fields.
      split; [reflexivity|]. split; [reflexivity|].
      fields. rewrite <- ?app_assoc. cbn [app]. split; [reflexivity|].
      split; [split; [discriminate | intros [d' [[= <-] Hle]]; lia]|].
      split; [reflexivity|]. split; [lia|]. split; reflexivity.
  - exists false. eexists. unfold terminate, kill. fields.
    split; [reflexivity|]. split; [reflexivity|].
    fields. rewrite <- ?app_assoc. cbn [app]. split; [reflexivity|].
    split; [split; [discriminate | intros [d' [H _]]; discriminate H]|].
    split; [reflexivity|]. split; [lia|]. split; reflexivity.
Qed.

(** X4: [stop] on a live handle sends SIGTERM first, waits with the 5-unit
    timeout, sends SIGKILL only when that wait timed out and then exactly
    once, takes at most 5 time units, writes nothing, keeps the request
    counter, and leaves the client without a handle.  The wait reaps the
    child exactly when the child's exit comes within the 5 units. *)
Theorem stop_sequence (w : World) (p : Popen) :
  process (self w) = Some p ->
  exists (reaped : bool) p',
    process (self (stop w)) = None
    /\ dropped (stop w) = (dropped w ++ [p'])%list
    /\ calls p'
       = (calls p ++ Terminate :: WaitFor grace reaped
            :: if reaped then [] else [Kill])%list
    /\ (reaped = true <-> exists d, exit_delay (terminate p) = Some d /\ d <= grace)
    /\ stdin p' = stdin p
    /\ clock w <= clock (stop w) <= clock w + grace
    /\ _request_id (self (stop w)) = _request_id (self w)
    /\ stderr (stop w) = stderr w.
Proof. exact (stop_step w p). Qed.

(** X5: [stop] is idempotent, and a stopped client degrades instead of
    failing: every later request returns [None] without consuming an id,
    [list_tools] returns the empty list, [call_tool] returns the "No
    response" error, and [_notify] does nothing; none of them changes
    anything. *)
Theorem stopped_client_degrades (w : World) :
  let w' := stop w in
  process (self w') = None
  /\ stop w' = w'
  /\ (forall method params, _request method params w' = (None, w'))
  /\ (forall method params, _notify method params w' = w')
  /\ list_tools w' = (Ok (JList []), w')
  /\ (forall name arguments,
         call_tool name arguments w'
         = (Ok (JDict [("error", JStr "No response from MCP server")]), w')).
Proof.
  intros w'.
  assert (Hnone : process (self w') = None).
  { subst w'. unfold stop. destruct (process (self w)) as [p|] eqn:Hp; [|exact Hp].
    destruct (wait (terminate p) grace) as [[p' r] dt]. reflexivity. }
  assert (Hreq : forall method params, _request method params w' = (None, w'))
    by (intros; apply _request_no_process; exact Hnone).
  repeat split.
  - exact Hnone.
  - unfold stop at 1. rewrite Hnone. reflexivity.
  - exact Hreq.
  - intros. unfold _notify. rewrite Hnone. reflexivity.
  - unfold list_tools. rewrite Hreq. reflexivity.
  - intros. unfold call_tool. rewrite Hreq. reflexivity.
Qed.

(** X18: once the child has closed its stdout, calls fail fast: a call
    returns [None], and so does the next call; when the first of them got as
    far as reading (the encoder took its request), it met end-of-stream and
    the next call returns without waiting; each of them still consumes a
    request id. *)
Theorem request_after_end_of_stream
    (method method' : string) (params params' : json) (w : World) (p : Popen)
    (t : Z) (rest : list (Z * py string)) :
  process (self w) = Some p ->
  stdout p = (t, Ok "") :: rest ->
  t < clock w + timeout ->
  let r := _request method params w in
  let r' := _request method' params' (snd r) in
  fst r = None
  /\ fst r' = None
  /\ (encode_error w params = None -> clock (snd r') = clock (snd r))
  /\ _request_id (self (snd r')) = _request_id (self w) + 2.
Proof.
  intros Hp Hout Ht r r'. subst r' r.
  pose proof (write_done_later p (clock w)) as Hd.
  destruct (_request_eof method params w p t rest Hp Hout ltac:(lia))
    as [Hnone [Hid [_ [p1 [Hp1 [Hout1 [Hb1 [Hr1 Hclk]]]]]]]].
  pose proof (_request_step method params w p Hp) as [p1' [Hp1' [_ [_ [Hmono _]]]]].
  destruct (_request method params w) as [o w1]. cbn [fst snd] in *.
  rewrite Hp1 in Hp1'. injection Hp1' as <-.
  rewrite Hout in Hout1.
  pose proof (write_done_later p1 (clock w1)) as Hd1.
  destruct (_request_eof method' params' w1 p1 t rest Hp1 Hout1 ltac:(lia))
    as [Hnone' [Hid' [_ [p2 [_ [_ [_ [_ Hclk']]]]]]]].
  split; [exact Hnone|]. split; [exact Hnone'|]. split; [|lia].
  intros He. unfold eof_clock, encodable in Hclk. rewrite He in Hclk.
  rewrite Hclk'. unfold eof_clock.
  destruct (encodable w1 params'); [|reflexivity].
  assert (Hroom : writable p (clock w) = true -> write_done p1 (clock w1) = clock w1).
  { intros Hw. rewrite Hw in Hclk. unfold write_done in *. rewrite Hr1. lia. }
  assert (Hbroken : writable p (clock w) = false ->
                    writable p1 (clock w1) = false /\ write_failed p1 (clock w1) = clock w1).
  { intros Hw. rewrite Hw in Hclk.
    unfold writable, write_failed, write_done in *. rewrite Hb1, Hr1.
    destruct (stdin_broken_at p) as [b|]; [|discriminate Hw].
    destruct (Z.leb_spec b (Z.max (clock w) (stdin_room_at p))); [|discriminate Hw].
    destruct (Z.leb_spec b (Z.max (clock w1) (stdin_room_at p))); split; trivial; lia. }
  destruct (writable p (clock w)) eqn:Hw.
  - specialize (Hroom eq_refl).
    destruct (writable p1 (clock w1)) eqn:Hw1.
    + rewrite Hroom. lia.
    + pose proof (write_failed_bounds p1 (clock w1) Hw1). lia.
  - destruct (Hbroken eq_refl) as [Hw1 Hf1]. rewrite Hw1. exact Hf1.
Qed.

(** X19: a call through [_request] prints at most one diagnostic on the
    client's stderr, and none when it returns a response. *)
Theorem request_prints_only_on_failure (method : string) (params : json) (w : World) :
  let r := _request method params w in
  stderr (snd r) = stderr w
  \/ (fst r = None /\ exists d, stderr (snd r) = (stderr w ++ [d])%list).
Proof.
  intros r. subst r. destruct (process (self w)) as [p|] eqn:Hp.
  - request_paths method params w p Hp.
    + right. split; [reflexivity | eexists; reflexivity].
    + destruct (read_loop (read_ahead p) (write_done p (clock w))
                  (write_done p (clock w)) (stdout p)) as [[o n] rest].
      destruct o as [resp|e].
      * left. reflexivity.
      * right. destruct e; cbn; (split; [reflexivity | eexists; reflexivity]).
    + right. split; [reflexivity | eexists; reflexivity].
  - rewrite (_request_no_process _ _ _ Hp). left. reflexivity.
Qed.

(** *** Further properties of the adapter and the handshake *)

(** A descriptor [convert_tools_to_ollama] can convert: an object with a
    [name]. *)
Lemma convert_tool_ok (tool : json) :
  (exists o, convert_tool tool = Ok o)
  <-> exists d name, tool = JDict d /\ dict_get "name" d = Some name.
Proof.
  split.
  - intros [o Ho]. destruct tool as [| | | | |d]; try discriminate Ho.
    unfold convert_tool in Ho. cbn [getitem] in Ho.
    destruct (dict_get "name" d) as [name|] eqn:Hn; [|discriminate Ho].
    exists d, name. split; [reflexivity | exact Hn].
  - intros [d [name [-> Hn]]]. unfold convert_tool. cbn [getitem py_get].
    rewrite Hn. eexists. reflexivity.
Qed.

(** X6: [convert_tools_to_ollama] succeeds exactly when every descriptor is
    an object with a [name]; otherwise it raises, and the first descriptor
    that is not decides how: [KeyError] for an object without [name],
    [TypeError] for anything that is not an object.  Nothing is returned for
    the descriptors before it. *)
Theorem convert_tools_failure (mcp_tools : list json) :
  ((exists ollama_tools, convert_tools_to_ollama mcp_tools = Ok ollama_tools)
   <-> Forall (fun tool => exists d name,
                   tool = JDict d /\ dict_get "name" d = Some name) mcp_tools)
  /\ (forall good bad rest,
         mcp_tools = (good ++ bad :: rest)%list ->
         Forall (fun tool => exists d name,
                     tool = JDict d /\ dict_get "name" d = Some name) good ->
         (forall d, bad = JDict d -> dict_get "name" d = None) ->
         convert_tools_to_ollama mcp_tools
         = Raise (match bad with JDict _ => KeyError | _ => TypeError end)).
Proof.
  split.
  - induction mcp_tools as [|tool tools IH].
    + split; [constructor | intros _; exists []; reflexivity].
    + cbn [convert_tools_to_ollama]. split.
      * intros [o Ho]. destruct (convert_tool tool) as [t|e] eqn:Ht; [|discriminate Ho].
        cbn [bind] in Ho.
        destruct (convert_tools_to_ollama tools) as [ts|e] eqn:Hts; [|discriminate Ho].
        constructor.
        -- apply convert_tool_ok. exists t. exact Ht.
        -- apply IH. exists ts. reflexivity.
      * intros H. inversion H as [|x xs Hx Hxs]; subst.
        apply convert_tool_ok in Hx. destruct Hx as [t Ht].
        apply IH in Hxs. destruct Hxs as [ts Hts].
        rewrite Ht, Hts. eexists. reflexivity.
  - intros good bad rest -> Hgood Hbad.
    induction Hgood as [|tool good Htool _ IH].
    + cbn [app convert_tools_to_ollama].
      destruct bad as [| | | | |d]; try reflexivity.
      unfold convert_tool. cbn [getitem]. rewrite (Hbad d eq_refl). reflexivity.
    + cbn [app convert_tools_to_ollama].
      apply convert_tool_ok in Htool. destruct Htool as [t Ht].
      rewrite Ht, IH. reflexivity.
Qed.

(** What [start] leaves behind once a child was spawned. *)
Lemma start_step (p : Popen) (w : World) :
  let started := start (Ok p) w in
  exists p',
    process (self (snd started)) = Some p'
    /\ calls p' = calls p
    /\ sigterm_exit p' = sigterm_exit p
    /\ stdin_broken_at p' = stdin_broken_at p
    /\ dropped (snd started) = dropped (install p w)
    /\ _request_id (self (snd started)) = _request_id (self w) + 1
    /\ encoder_rejects (snd started) = encoder_rejects w
    /\ (stdin_broken_at p = None ->
        stdin p'
        = (stdin p
           ++ [request_line (_request_id (self w) + 1) ("initialize", initialize_params)]
           ++ if fst started
              then [notification_line "notifications/initialized" (JDict [])]
              else [])%list).
Proof.
  intros started. subst started. unfold start. fold (install p w).
  destruct (_request_step "initialize" initialize_params (install p w) p eq_refl)
    as [p1 [Hp1 [Hb1 [_ [_ [Hid1 [He1 Hin1]]]]]]].
  destruct (_request_frame "initialize" initialize_params (install p w) p eq_refl)
    as [p1' [consumed [Hp1' [_ [_ [Hc1 [Hs1 [_ [Hd1 _]]]]]]]]].
  rewrite Hp1 in Hp1'. injection Hp1' as <-.
  assert (Hid : _request_id (self (install p w)) = _request_id (self w))
    by (unfold install; destruct (process (self w)); reflexivity).
  assert (Hew : encoder_rejects (install p w) = encoder_rejects w)
    by (unfold install; destruct (process (self w)); reflexivity).
  rewrite Hid in Hid1, Hin1. rewrite Hew in He1.
  change (encodable (install p w) initialize_params) with true in Hin1.
  cbn [andb] in Hin1.
  destruct (_request "initialize" initialize_params (install p w)) as [response w1].
  cbn [fst snd] in *.
  destruct (and_in response "result") as [[|]|e]; cbn [fst snd].
  - destruct (writable p1 (clock w1)) eqn:Hw1.
    + rewrite (_notify_live "notifications/initialized" (JDict []) w1 p1 Hp1
                 (encodable_shallow w1 (JDict []) eq_refl) Hw1).
      eexists. split; [reflexivity|]. fields. repeat split; try assumption.
      intros Hb. unfold writable in Hin1. rewrite Hb in Hin1. rewrite Hin1.
      rewrite <- app_assoc. reflexivity.
    + rewrite (_notify_broken "notifications/initialized" (JDict []) w1 p1 Hp1
                 (encodable_shallow w1 (JDict []) eq_refl) Hw1).
      exists p1. fields. repeat split; try assumption.
      intros Hb. unfold writable in Hw1. rewrite Hb1, Hb in Hw1. discriminate Hw1.
  - exists p1. repeat split; try assumption.
    intros Hb. unfold writable in Hin1. rewrite Hb in Hin1. exact Hin1.
  - exists p1. fields. repeat split; try assumption.
    intros Hb. unfold writable in Hin1. rewrite Hb in Hin1. exact Hin1.
Qed.

(** X7: whatever the outcome of the handshake, [start] leaves the child it
    spawned installed and sends it no signal; in particular a failed
    handshake does not terminate the child.  The only handle let go of is the
    one a previous [start] had installed. *)
Theorem start_never_stops_child (p : Popen) (w : World) :
  let started := start (Ok p) w in
  exists p',
    process (self (snd started)) = Some p'
    /\ calls p' = calls p
    /\ dropped (snd started)
       = (dropped w ++ match process (self w) with
                       | Some old => [old]
                       | None => []
                       end)%list.
Proof.
  intros started. subst started.
  destruct (start_step p w) as [p' [Hp' [Hc [_ [_ [Hd _]]]]]].
  exists p'. split; [exact Hp'|]. split; [exact Hc|].
  rewrite Hd. unfold install. destruct (process (self w)); cbn.
  - reflexivity.
  - rewrite app_nil_r. reflexivity.
Qed.

(** X8: each public call issues exactly one request.  While the pipe takes
    writes and the encoder takes the arguments of the tool call, the wire
    after [start], [list_tools] and [call_tool] holds, in this order: the
    [initialize] request, the [notifications/initialized] line if the
    handshake succeeded, the [tools/list] request with empty params, and the
    [tools/call] request whose params carry the name and the arguments; the
    three requests carry consecutive ids. *)
Theorem startup_calls_on_the_wire
    (p : Popen) (w : World) (name : string) (arguments : json) :
  stdin_broken_at p = None ->
  encode_error w (JDict [("name", JStr name); ("arguments", arguments)]) = None ->
  let started := start (Ok p) w in
  let listed := list_tools (snd started) in
  let called := call_tool name arguments (snd listed) in
  wire (snd called)
  = (stdin p
     ++ [request_line (_request_id (self w) + 1) ("initialize", initialize_params)]
     ++ (if fst started
         then [notification_line "notifications/initialized" (JDict [])]
         else [])
     ++ [request_line (_request_id (self w) + 2) ("tools/list", JDict []);
         request_line (_request_id (self w) + 3)
           ("tools/call", JDict [("name", JStr name); ("arguments", arguments)])])%list
  /\ _request_id (self (snd called)) = _request_id (self w) + 3.
Proof.
  intros Hb He started listed called. subst called listed.
  destruct (start_step p w) as [p1 [Hp1 [_ [_ [Hb1 [_ [Hid1 [He1 Hin1]]]]]]]].
  specialize (Hin1 Hb). fold started in Hp1, Hb1, Hid1, He1, Hin1.
  unfold list_tools, call_tool.
  destruct (_request_step "tools/list" (JDict []) (snd started) p1 Hp1)
    as [p2 [Hp2 [Hb2 [_ [_ [Hid2 [He2 Hin2]]]]]]].
  change (encodable (snd started) (JDict [])) with true in Hin2.
  destruct (_request "tools/list" (JDict []) (snd started)) as [r2 w2].
  cbn [fst snd] in *.
  destruct (_request_step "tools/call"
              (JDict [("name", JStr name); ("arguments", arguments)]) w2 p2 Hp2)
    as [p3 [Hp3 [Hb3 [_ [_ [Hid3 [_ Hin3]]]]]]].
  unfold encodable in Hin3.
  rewrite (encode_error_frame w w2 _ ltac:(congruence)), He in Hin3.
  destruct (_request "tools/call" _ w2) as [r3 w3].
  cbn [fst snd] in *.
  unfold writable in Hin2, Hin3. rewrite Hb1, Hb in Hin2. rewrite Hb2, Hb1, Hb in Hin3.
  cbn [andb] in Hin2, Hin3.
  unfold wire. rewrite Hp3, Hin3, Hin2, Hin1, Hid2, Hid1.
  replace (_request_id (self w) + 1 + 1) with (_request_id (self w) + 2) by lia.
  replace (_request_id (self w) + 2 + 1) with (_request_id (self w) + 3) by lia.
  split; [|lia].
  rewrite <- !app_assoc. reflexivity.
Qed.

(** *** The tool catalogue and the tool call on well-shaped responses *)

Lemma tools_of_spec (response : option json) :
  list_response_ok response = true ->
  tools_of response = Ok (list_tools_spec response).
Proof.
  destruct response as [[| | | | |d]|]; try discriminate; [|reflexivity].
  unfold list_response_ok, tools_of, list_tools_spec, and_in, getitem_response.
  destruct d as [|kv d']; [reflexivity|]. set (d := kv :: d').
  cbn [truthy py_in bind getitem].
  destruct (dict_get "result" d) as [[| | | | |result]|]; try discriminate; reflexivity.
Qed.

(** X20: [list_tools] issues one [tools/list] request and returns the
    [tools] entry of the result as the server sent it when the response is an
    object whose [result] is an object holding one, and the empty sequence
    when there is no response, the response has no [result], or the [result]
    object has no [tools] entry. *)
Theorem list_tools_returns_advertised_tools (w : World) :
  let response := fst (_request "tools/list" (JDict []) w) in
  list_response_ok response = true ->
  fst (list_tools w) = Ok (list_tools_spec response)
  /\ snd (list_tools w) = snd (_request "tools/list" (JDict []) w).
Proof.
  intros response Hok. subst response. unfold list_tools.
  destruct (_request "tools/list" (JDict []) w) as [response w'].
  cbn [fst snd] in *. rewrite (tools_of_spec _ Hok). split; reflexivity.
Qed.

Lemma tool_outcome_spec (response : option json) :
  call_response_ok response = true ->
  tool_outcome response = Ok (call_tool_spec response).
Proof.
  destruct response as [[| | | | |d]|]; try discriminate; [|reflexivity].
  unfold call_response_ok, tool_outcome, tool_content, call_tool_spec,
    content_text, error_message, and_in, getitem_response.
  destruct d as [|kv d']; [reflexivity|]. set (d := kv :: d').
  cbn [truthy py_in getitem].
  intros H. apply andb_prop in H. destruct H as [Hres Herr].
  assert (Herror :
            (has_error <- Ok (match dict_get "error" d with Some _ => true | None => false end) ;;
             if has_error then
               error <- match dict_get "error" d with
                        | Some x => Ok x
                        | None => Raise KeyError
                        end ;;
               message <- py_get error "message" (JStr "Unknown error") ;;
               Ok (JDict [("error", message)])
             else Ok (JDict [("error", JStr "No response from MCP server")]))
            = Ok match match dict_get "error" d with
                       | Some (JDict error) =>
                           Some match dict_get "message" error with
                                | Some message => message
                                | None => JStr "Unknown error"
                                end
                       | _ => None
                       end with
                 | Some message => JDict [("error", message)]
                 | None => JDict [("error", JStr "No response from MCP server")]
                 end).
  { destruct (dict_get "error" d) as [[| | | | |error]|]; try discriminate; reflexivity. }
  destruct (dict_get "result" d) as [[| | | | |result]|]; try discriminate;
    cbn [bind py_get]; [|exact Herror].
  unfold result_ok in Hres.
  destruct (dict_get "content" result) as [content|]; [|exact Herror].
  destruct content as [| [|] | z | s | [|item more] | [|kv' c]];
    try discriminate; try exact Herror.
  - cbn in Hres. destruct (Z.eqb_spec z 0); [subst; exact Herror | discriminate].
  - cbn in Hres. destruct (String.eqb_spec s ""); [subst; exact Herror | discriminate].
  - unfold text_ok in Hres.
    destruct item as [| | | | |i]; try discriminate.
    cbn [truthy py_len bind List.length getitem0 py_get].
    replace (0 <? Z.of_nat (S (List.length more))) with true
      by (symmetry; apply Z.ltb_lt; lia).
    unfold decode_settles in Hres.
    destruct (dict_get "text" i) as [[| | |text| |]|]; try discriminate.
    + cbn [loads bind].
      destruct (json_loads text) as [v|[]]; try discriminate; reflexivity.
    + cbn [loads bind].
      destruct (json_loads "{}") as [v|[]]; try discriminate; reflexivity.
Qed.

(** X21: on a response whose [result], when present, is an object whose
    [content] is missing, falsy or a list starting with an object whose
    [text] is missing or a string on which the decoder returns or raises
    [JSONDecodeError], and whose [error], when present, is an object,
    [call_tool] returns: the decode of the first content element's text, or
    [{"result": text}] when the decoder rejects it, if the result has a
    non-empty content list; otherwise [{"error": message}] with the server's
    message or ["Unknown error"] if there is an error member; otherwise
    [{"error": "No response from MCP server"}]. *)
Theorem call_tool_returns_decoded_or_error
    (name : string) (arguments : json) (w : World) :
  let request := _request "tools/call"
                   (JDict [("name", JStr name); ("arguments", arguments)]) w in
  call_response_ok (fst request) = true ->
  fst (call_tool name arguments w) = Ok (call_tool_spec (fst request))
  /\ snd (call_tool name arguments w) = snd request.
Proof.
  intros request Hok. subst request. unfold call_tool.
  destruct (_request "tools/call" _ w) as [response w'].
  cbn [fst snd] in *. rewrite (tool_outcome_spec _ Hok). split; reflexivity.
Qed.

(** X22: when the response to [tools/call] is an object whose [result] is an
    object, [call_tool] returns [{"error": "No response from MCP server"}] if
    the content list is empty or missing and there is no [error] member; and
    it returns the decode of ["{}"], the empty object, if the first element
    of the content list is an object without a [text] member. *)
Theorem call_tool_empty_content_and_missing_text
    (name : string) (arguments : json) (w : World)
    (d result : list (string * json)) :
  fst (_request "tools/call"
         (JDict [("name", JStr name); ("arguments", arguments)]) w)
  = Some (JDict d) ->
  dict_get "result" d = Some (JDict result) ->
  (dict_get "error" d = None ->
   dict_get "content" result = None \/ dict_get "content" result = Some (JList []) ->
   fst (call_tool name arguments w)
   = Ok (JDict [("error", JStr "No response from MCP server")]))
  /\ (forall item more,
         dict_get "content" result = Some (JList (JDict item :: more)) ->
         dict_get "text" item = None ->
         json_loads "{}" = Ok (JDict []) ->
         fst (call_tool name arguments w) = Ok (JDict [])).
Proof.
  intros Hresp Hres. unfold call_tool.
  destruct (_request "tools/call" _ w) as [response w'].
  cbn [fst] in *. subst response.
  assert (Hd : truthy (JDict d) = true)
    by (destruct d; [discriminate Hres | reflexivity]).
  unfold tool_outcome, tool_content, and_in, getitem_response.
  rewrite Hd. cbn [py_in getitem]. rewrite Hres. cbn [bind py_get].
  split.
  - intros Herr [Hc | Hc]; rewrite Hc; cbn; rewrite Herr; reflexivity.
  - intros item more Hc Ht Hl. rewrite Hc.
    cbn [truthy py_len bind List.length getitem0 py_get].
    replace (0 <? Z.of_nat (S (List.length more))) with true
      by (symmetry; apply Z.ltb_lt; lia).
    rewrite Ht. cbn [loads bind]. rewrite Hl. reflexivity.
Qed.

(** *** The chat application's shutdown *)

(** X9: when the response to the [disconnect] call is one on which
    [call_tool] is specified (or there is none), [RVRChat.stop] returns
    normally: the [disconnect] request is the last thing written to the
    child, the child is then sent SIGTERM (and SIGKILL only after the 5-unit
    wait timed out), the client is left without a handle, one request id was
    consumed, and the shutdown ends at most 30 + 5 time units after the
    instant at which the pipe has room for the [disconnect] request. *)
Theorem chat_stop_disconnects_then_terminates (w : World) (p : Popen) :
  process (self w) = Some p ->
  let params := JDict [("name", JStr "disconnect"); ("arguments", JDict [])] in
  call_response_ok (fst (_request "tools/call" params w)) = true ->
  exists w' p' (reaped : bool),
    RVRChat_stop (Some w) = (Ok tt, Some w')
    /\ process (self w') = None
    /\ dropped w' = (dropped w ++ [p'])%list
    /\ stdin p'
       = (stdin p ++ if writable p (clock w)
                     then [request_line (_request_id (self w) + 1) ("tools/call", params)]
                     else [])%list
    /\ calls p'
       = (calls p ++ Terminate :: WaitFor grace reaped
            :: if reaped then [] else [Kill])%list
    /\ clock w <= clock w' <= write_done p (clock w) + timeout + grace
    /\ _request_id (self w') = _request_id (self w) + 1.
Proof.
  intros Hp params Hok. unfold RVRChat_stop, call_tool. fold params.
  pose proof (_request_clock "tools/call" params w p Hp) as Hclk.
  destruct (_request_step "tools/call" params w p Hp)
    as [p1 [Hp1 [_ [_ [_ [Hid1 [_ Hin1]]]]]]].
  change (encodable w params) with true in Hin1. cbn [andb] in Hin1.
  destruct (_request_frame "tools/call" params w p Hp)
    as [p1' [consumed [Hp1' [_ [_ [Hc1 [_ [_ [Hd1 _]]]]]]]]].
  rewrite Hp1 in Hp1'. injection Hp1' as <-.
  destruct (_request "tools/call" params w) as [response w1].
  cbn [fst snd] in *. rewrite (tool_outcome_spec _ Hok).
  destruct (stop_step w1 p1 Hp1)
    as [reaped [p' [Hnone [Hdrop [Hcalls [_ [Hin [Hclk2 [Hid2 _]]]]]]]]].
  exists (stop w1), p', reaped.
  split; [reflexivity|]. split; [exact Hnone|].
  split; [rewrite Hdrop, Hd1; reflexivity|].
  split; [rewrite Hin; exact Hin1|].
  split; [rewrite Hcalls, Hc1; reflexivity|].
  split; [lia|]. rewrite Hid2. exact Hid1.
Qed.

(** X10: when [call_tool] raises on the response to [disconnect],
    [RVRChat.stop] raises the same exception before it reaches
    [MCPClient.stop]: the child stays installed and is sent no signal. *)
Theorem chat_stop_raises_without_terminating (w : World) (p : Popen) (e : exn) :
  process (self w) = Some p ->
  fst (call_tool "disconnect" (JDict []) w) = Raise e ->
  fst (RVRChat_stop (Some w)) = Raise e
  /\ exists w' p',
       snd (RVRChat_stop (Some w)) = Some w'
       /\ process (self w') = Some p'
       /\ calls p' = calls p
       /\ dropped w' = dropped w.
Proof.
  intros Hp Hraise. unfold RVRChat_stop.
  unfold call_tool in *.
  destruct (_request_frame "tools/call"
              (JDict [("name", JStr "disconnect"); ("arguments", JDict [])]) w p Hp)
    as [p1 [consumed [Hp1 [_ [_ [Hc1 [_ [_ [Hd1 _]]]]]]]]].
  destruct (_request "tools/call" _ w) as [response w1].
  cbn [fst snd] in *. rewrite Hraise.
  split; [reflexivity|]. exists w1, p1. repeat split; assumption.
Qed.

(** *** The conversation history *)

Lemma slice_from_last {A : Type} (l : list A) (x : A) (i : Z) :
  i <= -1 ->
  slice_from (l ++ [x]) i
  = (skipn (Z.to_nat (Z.max 0 (Z.of_nat (List.length l) + 1 + i))) l ++ [x])%list.
Proof.
  intros Hi. unfold slice_from.
  destruct (Z.ltb_spec i 0); [|lia].
  rewrite length_app. cbn [List.length].
  replace (Z.of_nat (List.length l + 1)) with (Z.of_nat (List.length l) + 1) by lia.
  set (k := Z.to_nat (Z.max 0 (Z.of_nat (List.length l) + 1 + i))).
  assert (Hk : (k <= List.length l)%nat) by (subst k; lia).
  rewrite skipn_app.
  replace (k - List.length l)%nat with 0%nat by lia. reflexivity.
Qed.

Lemma slice_from_one {A : Type} (x : A) (l : list A) :
  slice_from (x :: l) 1 = l.
Proof.
  unfold slice_from. cbn [Z.ltb Z.compare List.length].
  replace (Z.to_nat (Z.min 1 (Z.of_nat (S (List.length l))))) with 1%nat by lia.
  reflexivity.
Qed.

Lemma slice_from_zero {A : Type} (l : list A) : slice_from l 0 = l.
Proof.
  unfold slice_from. cbn [Z.ltb Z.compare].
  replace (Z.to_nat (Z.min 0 (Z.of_nat (List.length l)))) with 0%nat by lia.
  reflexivity.
Qed.

Lemma add_message_messages (now role content : string)
    (tool_calls : option (list json)) (m : Memory.ConversationMemory) :
  let l := (Memory.messages m ++ [Memory.message_of role content tool_calls])%list in
  Memory.messages (Memory.add_message now role content tool_calls m)
  = if Memory.max_messages m <? Z.of_nat (List.length l) then
      match l with
      | first :: _ =>
          if Memory.is_system first
          then first :: slice_from l (- (Memory.max_messages m - 1))
          else slice_from l (- Memory.max_messages m)
      | [] => slice_from l (- Memory.max_messages m)
      end
    else l.
Proof.
  destruct tool_calls as [[|c tc]|]; reflexivity.
Qed.

Lemma add_message_trims (now role content : string)
    (tool_calls : option (list json)) (m : Memory.ConversationMemory) :
  2 <= Memory.max_messages m ->
  let m' := Memory.add_message now role content tool_calls m in
  Z.of_nat (List.length (Memory.messages m')) <= Memory.max_messages m
  /\ exists earlier,
       Memory.messages m'
       = (earlier ++ [Memory.message_of role content tool_calls])%list.
Proof.
  intros Hmax m'. subst m'. rewrite add_message_messages.
  set (msg := Memory.message_of role content tool_calls).
  set (old := Memory.messages m).
  destruct (Z.ltb_spec (Memory.max_messages m) (Z.of_nat (List.length (old ++ [msg])))) as [Hover|Hfit].
  - rewrite length_app in Hover. cbn [List.length] in Hover.
    rewrite !slice_from_last by lia.
    destruct (old ++ [msg])%list as [|first rest] eqn:Hl.
    + destruct old; discriminate Hl.
    + destruct (Memory.is_system first).
      * split.
        -- cbn [List.length]. rewrite length_app, length_skipn. cbn [List.length]. lia.
        -- eexists (first :: _). reflexivity.
      * split.
        -- rewrite length_app, length_skipn. cbn [List.length]. lia.
        -- eexists. reflexivity.
  - split; [exact Hfit|]. exists old. reflexivity.
Qed.

(** X11: with [max_messages] at least 2, the history holds at most
    [max_messages] messages after [add_message], however long it was before,
    and the message just added is its last one. *)
Theorem add_message_bounded (now role content : string)
    (tool_calls : option (list json)) (m : Memory.ConversationMemory) :
  2 <= Memory.max_messages m ->
  let m' := Memory.add_message now role content tool_calls m in
  Z.of_nat (List.length (Memory.messages m')) <= Memory.max_messages m
  /\ exists earlier,
       Memory.messages m'
       = (earlier ++ [Memory.message_of role content tool_calls])%list.
Proof. exact (add_message_trims now role content tool_calls m). Qed.

(** X12: a system prompt at the head of the history stays at its head
    through [add_message], for every value of [max_messages]. *)
Theorem add_message_keeps_system_prompt (now role content : string)
    (tool_calls : option (list json)) (m : Memory.ConversationMemory)
    (first : list (string * json)) :
  hd_error (Memory.messages m) = Some first ->
  Memory.is_system first = true ->
  hd_error (Memory.messages (Memory.add_message now role content tool_calls m))
  = Some first.
Proof.
  intros Hhd Hsys. rewrite add_message_messages.
  destruct (Memory.messages m) as [|first' rest]; [discriminate Hhd|].
  injection Hhd as ->. cbn [app]. rewrite Hsys.
  destruct (_ <? _); reflexivity.
Qed.

(** X13: when the history is exactly full ([max_messages] messages, at least
    2), [add_message] drops one message and appends the new one: the second
    message when the first is a system prompt, the first one otherwise; the
    others keep their order. *)
Theorem add_message_drops_oldest (now role content : string)
    (tool_calls : option (list json)) (m : Memory.ConversationMemory)
    (first second : list (string * json)) (rest : list (list (string * json))) :
  2 <= Memory.max_messages m ->
  Memory.messages m = first :: second :: rest ->
  Z.of_nat (List.length (Memory.messages m)) = Memory.max_messages m ->
  Memory.messages (Memory.add_message now role content tool_calls m)
  = if Memory.is_system first
    then (first :: rest ++ [Memory.message_of role content tool_calls])%list
    else (second :: rest ++ [Memory.message_of role content tool_calls])%list.
Proof.
  intros Hmax Hm Hfull. rewrite add_message_messages. rewrite Hm in *.
  set (msg := Memory.message_of role content tool_calls).
  cbn [List.length] in Hfull.
  destruct (Z.ltb_spec (Memory.max_messages m)
              (Z.of_nat (List.length ((first :: second :: rest) ++ [msg]))))
    as [_|Hfit].
  - rewrite !slice_from_last by lia. cbn [app List.length].
    destruct (Memory.is_system first).
    + replace (Z.to_nat _) with 2%nat by lia. reflexivity.
    + replace (Z.to_nat _) with 1%nat by lia. reflexivity.
  - rewrite length_app in Hfit. cbn [List.length] in Hfit. lia.
Qed.

(** X14: what [add_message] does under the limits 0 and 1.  With
    [max_messages] equal to 0 nothing is ever trimmed.  With [max_messages]
    equal to 1 and a system prompt at the head, nothing is trimmed either and
    a second copy of the system prompt is put in front.  With [max_messages]
    equal to 1 and no system prompt at the head, the history is cut down to
    the message just added. *)
Theorem add_message_small_limit (now role content : string)
    (tool_calls : option (list json)) (m : Memory.ConversationMemory) :
  let msg := Memory.message_of role content tool_calls in
  let m' := Memory.add_message now role content tool_calls m in
  (Memory.max_messages m = 0 ->
   Memory.messages m' = (Memory.messages m ++ [msg])%list)
  /\ (forall first,
         Memory.max_messages m = 1 ->
         hd_error (Memory.messages m) = Some first ->
         Memory.is_system first = true ->
         Memory.messages m' = (first :: Memory.messages m ++ [msg])%list)
  /\ (Memory.max_messages m = 1 ->
      (forall first, hd_error (Memory.messages m) = Some first ->
                     Memory.is_system first = false) ->
      Memory.messages m' = [msg]).
Proof.
  intros msg m'. subst m'. rewrite add_message_messages. fold msg.
  split; [|split].
  - intros ->.
    destruct (Memory.messages m ++ [msg])%list as [|first rest] eqn:Hl.
    + destruct (Memory.messages m); discriminate Hl.
    + replace (0 <? Z.of_nat (List.length (first :: rest))) with true
        by (symmetry; apply Z.ltb_lt; cbn [List.length]; lia).
      change (- (0 - 1)) with 1. change (- 0) with 0.
      rewrite slice_from_one, slice_from_zero.
      destruct (Memory.is_system first); reflexivity.
  - intros first -> Hhd Hsys.
    destruct (Memory.messages m) as [|first' rest]; [discriminate Hhd|].
    injection Hhd as ->. cbn [app]. rewrite Hsys.
    replace (1 <? Z.of_nat (List.length (first :: rest ++ [msg]))) with true
      by (symmetry; apply Z.ltb_lt; cbn [List.length]; rewrite length_app;
          cbn [List.length]; lia).
    change (- (1 - 1)) with 0. rewrite slice_from_zero. reflexivity.
  - intros -> Hhead.
    destruct (Memory.messages m) as [|first rest] eqn:Hm.
    + reflexivity.
    + change (- (1)) with (-1).
      rewrite (slice_from_last (first :: rest) msg (-1)) by lia.
      cbn [app]. rewrite (Hhead first eq_refl).
      replace (1 <? Z.of_nat (List.length (first :: rest ++ [msg]))) with true
        by (symmetry; apply Z.ltb_lt; cbn [List.length]; rewrite length_app;
            cbn [List.length]; lia).
      replace (Z.to_nat (Z.max 0 (Z.of_nat (List.length (first :: rest)) + 1 + - 1)))
        with (List.length (first :: rest)) by lia.
      rewrite skipn_all. reflexivity.
Qed.

(** X15: [add_tool_result] appends one [tool] message and never trims, so
    the history can exceed [max_messages]; its content is the result itself
    when that is a string and its JSON encoding otherwise.  The next
    [add_message] brings the history back within [max_messages] (at least
    2). *)
Theorem add_tool_result_is_not_trimmed (now now' tool_name role content : string)
    (result : json) (tool_calls : option (list json))
    (m : Memory.ConversationMemory) :
  2 <= Memory.max_messages m ->
  let m1 := Memory.add_tool_result json_dumps now tool_name result m in
  Memory.messages m1
  = (Memory.messages m
     ++ [[("role", JStr "tool"); ("name", JStr tool_name);
          ("content", JStr match result with
                           | JStr s => s
                           | _ => json_dumps result
                           end)]])%list
  /\ List.length (Memory.messages m1) = S (List.length (Memory.messages m))
  /\ Z.of_nat (List.length
                 (Memory.messages (Memory.add_message now' role content tool_calls m1)))
     <= Memory.max_messages m.
Proof.
  intros Hmax m1. split; [reflexivity|]. split.
  - subst m1. cbn. rewrite length_app. cbn. lia.
  - exact (proj1 (add_message_trims now' role content tool_calls m1 Hmax)).
Qed.

(** X16: [clear] leaves at most one message, the system prompt that was at
    the head if there was one; clearing twice is clearing once; the limit and
    the session name are kept; and the first message added afterwards comes
    right after what [clear] left ([max_messages] at least 2). *)
Theorem clear_then_add (now now' now'' role content : string)
    (tool_calls : option (list json)) (m : Memory.ConversationMemory) :
  2 <= Memory.max_messages m ->
  let m' := Memory.clear now m in
  (List.length (Memory.messages m') <= 1)%nat
  /\ (forall first, In first (Memory.messages m') ->
                    hd_error (Memory.messages m) = Some first
                    /\ Memory.is_system first = true)
  /\ (forall first, hd_error (Memory.messages m) = Some first ->
                    Memory.is_system first = true ->
                    Memory.messages m' = [first])
  /\ Memory.messages (Memory.clear now' m') = Memory.messages m'
  /\ Memory.max_messages m' = Memory.max_messages m
  /\ Memory.session_name m' = Memory.session_name m
  /\ Memory.messages (Memory.add_message now'' role content tool_calls m')
     = (Memory.messages m' ++ [Memory.message_of role content tool_calls])%list.
Proof.
  intros Hmax m'. subst m'. rewrite add_message_messages.
  unfold Memory.clear. cbn [Memory.messages Memory.max_messages Memory.session_name].
  assert (Hfit1 : (Memory.max_messages m <? Z.of_nat 1) = false)
    by (apply Z.ltb_ge; lia).
  assert (Hfit2 : (Memory.max_messages m <? Z.of_nat 2) = false)
    by (apply Z.ltb_ge; lia).
  destruct (Memory.messages m) as [|first rest].
  - cbn [List.length app hd_error In]. rewrite Hfit1.
    split; [lia|]. split; [intros f []|]. split; [discriminate|].
    repeat split.
  - destruct (Memory.is_system first) eqn:Hsys.
    + cbn [List.length app hd_error In]. rewrite Hsys, Hfit2.
      split; [lia|].
      split; [intros f [<-|[]]; split; [reflexivity | exact Hsys]|].
      split; [intros f [= <-] _; reflexivity|].
      repeat split.
    + cbn [List.length app hd_error In]. rewrite Hfit1.
      split; [lia|]. split; [intros f []|].
      split; [intros f [= <-] Hf; congruence|].
      repeat split.
Qed.

(** *** Slash commands *)

Lemma lstrip_head (s : string) (c : ascii) (s' : string) :
  lstrip s = String c s' -> isspace c = false.
Proof.
  induction s as [|c0 s IH]; [discriminate|].
  cbn [lstrip]. destruct (isspace c0) eqn:Hc0; [exact IH|].
  intros [= <- _]. exact Hc0.
Qed.

Lemma split_word_spec (s : string) :
  s = fst (split_word s) ++ snd (split_word s)
  /\ has_space (fst (split_word s)) = false
  /\ match snd (split_word s) with
     | EmptyString => True
     | String c _ => isspace c = true
     end.
Proof.
  induction s as [|c s [IH1 [IH2 IH3]]]; [repeat split|].
  cbn [split_word]. destruct (isspace c) eqn:Hc.
  - repeat split. exact Hc.
  - destruct (split_word s) as [word rest]. cbn [fst snd] in *.
    split; [cbn; f_equal; exact IH1|].
    split; [cbn [has_space]; rewrite Hc; exact IH2 | exact IH3].
Qed.

(** X17: [handle_command] looks at what follows the first character of the
    command.  When that is empty or whitespace only (the input ["/"]), it
    raises [IndexError] at [parts[0]].  Otherwise the command word is the
    lower-cased run of characters up to the first whitespace, and the
    arguments are what follows with its leading whitespace removed and its
    trailing whitespace kept. *)
Theorem handle_command_parts_spec (command : string) :
  (lstrip (from_second command) = "" ->
   handle_command_parts command = Raise IndexError)
  /\ (lstrip (from_second command) <> "" ->
      exists word rest,
        lstrip (from_second command) = word ++ rest
        /\ word <> ""
        /\ has_space word = false
        /\ match rest with
           | EmptyString => True
           | String c _ => isspace c = true
           end
        /\ handle_command_parts command = Ok (lower word, lstrip rest)).
Proof.
  unfold handle_command_parts, split1. split.
  - intros ->. reflexivity.
  - intros Hne. destruct (lstrip (from_second command)) as [|c s1] eqn:Hl;
      [contradiction|].
    pose proof (lstrip_head _ _ _ Hl) as Hc.
    destruct (split_word_spec (String c s1)) as [H1 [H2 H3]].
    destruct (split_word (String c s1)) as [word rest] eqn:Hw.
    cbn [fst snd] in *.
    exists word, rest. split; [exact H1|].
    split.
    { intros ->. cbn [split_word] in Hw. rewrite Hc in Hw.
      destruct (split_word s1). discriminate Hw. }
    split; [exact H2|]. split; [exact H3|].
    destruct (lstrip rest); reflexivity.
Qed.

End Client.

(** ** The statements on concrete sessions *)

Ltac run := vm_compute; repeat split; try reflexivity; try discriminate.

(** C1, as stated, fails: the request on the wire carries id 1, a stray
    message with id 99 is read first, and the call returns that message; the
    matching response is left unread. *)
Lemma request_returns_stray_message :
  let w := session_with (child_printing stray_then_match) in
  let r := _request Codec.json_loads Codec.json_dumps "tools/list" (JDict []) w in
  wire (snd r)
  = [Codec.q "{'jsonrpc': '2.0', 'id': 1, 'method': 'tools/list', 'params': {}}" ++ nl]
  /\ _request_id (self (snd r)) = 1
  /\ fst r = Some stray_message
  /\ message_id stray_message = Some (JInt 99)
  /\ option_map stdout (process (self (snd r))) = Some [(2, Ok matching_line)]
  /\ Codec.json_loads (strip matching_line) = Ok matching_message
  /\ message_id matching_message = Some (JInt 1).
Proof. run. Qed.

Lemma request_returns_first_decoded_witness :
  let w := session_with (child_printing banner_then_match) in
  let r := _request Codec.json_loads Codec.json_dumps "tools/list" (JDict []) w in
  Codec.json_loads (strip matching_line) = Ok matching_message
  /\ fst r = Some matching_message
  /\ stderr (snd r) = []
  /\ wire (snd r)
     = [Codec.q "{'jsonrpc': '2.0', 'id': 1, 'method': 'tools/list', 'params': {}}" ++ nl]
  /\ exists p', process (self (snd r)) = Some p' /\ stdout p' = [].
Proof.
  split; [reflexivity|].
  apply (request_returns_first_decoded Codec.json_loads Codec.json_dumps
           "tools/list" (JDict []) (session_with (child_printing banner_then_match))
           (child_printing banner_then_match)
           [(1, "Server starting..." ++ nl); (1, "   " ++ nl); (2, "{not json" ++ nl)]
           3 matching_line [] matching_message).
  - reflexivity.
  - reflexivity.
  - reflexivity.
  - reflexivity.
  - apply Forall_cons; [|apply Forall_cons; [|apply Forall_cons; [|apply Forall_nil]]];
      (split; [reflexivity|]); (split; [discriminate|]).
    + right; left; reflexivity.
    + left; reflexivity.
    + right; right; reflexivity.
  - reflexivity.
  - reflexivity.
  - reflexivity.
Defined.

(** C6 at a log line that is a JSON object holding an integer of 4301
    digits: the line starts with an opening brace and its decode fails with
    [ValueError], which the loop does not catch; the call prints an error and
    returns [None] with the response still unread, where without that line
    it returns the response.  A line the text layer cannot decode ends the
    call in the same way. *)
Theorem long_number_line_ends_the_call :
  let call p := _request Codec.json_loads Codec.json_dumps "tools/list" (JDict [])
                  (session_with p) in
  let r := call (child_printing long_number_then_match) in
  let r' := call (child_reading undecodable_then_match) in
  (long_number_line <> ""
   /\ startswith (strip long_number_line) "{" = true
   /\ Codec.json_loads (strip long_number_line) = Raise ValueError)
  /\ (fst r = None
      /\ stderr (snd r) = [RequestError ValueError]
      /\ option_map stdout (process (self (snd r))) = Some [(2, Ok matching_line)])
  /\ fst (call (child_printing [(2, matching_line)])) = Some matching_message
  /\ (fst r' = None
      /\ stderr (snd r') = [RequestError UnicodeDecodeError]
      /\ option_map stdout (process (self (snd r'))) = Some [(2, Ok matching_line)]).
Proof. run. Qed.



(** C2 at a child that ignores SIGTERM: [stop] terminates, waits out the
    grace period, kills, and lets go of the handle without having reaped the
    child; on a child that exits in time it reaps once. *)
Theorem stop_forced_kill_leaves_child_unreaped :
  let w := stop (session_with stubborn_child) in
  process (self w) = None
  /\ clock w = grace
  /\ map calls (dropped w) = [[Terminate; WaitFor 5 false; Kill]]
  /\ map reaps (dropped w) = [0%nat]
  /\ map kills (dropped w) = [1%nat]
  /\ map reaps (dropped (stop (session_with (child_printing [])))) = [1%nat].
Proof. run. Qed.

(** C4, as stated, fails: the second of three calls passes arguments that
    hold an integer of 4301 digits, [json.dumps] raises [ValueError] inside
    the [try] block after the counter was advanced, and nothing is written
    for that call; the wire holds the ids 1 and 3. *)
Lemma request_ids_skip_rejected_call :
  let p := child_printing [(1, matching_line); (2, plain_text_line)] in
  let w := limited_session_with p in
  let s := run_requests Codec.json_loads Codec.json_dumps calls_with_long_arguments w in
  _request_id (self w) = _request_id (__init__ (command (self w)))
  /\ encode_error w (JDict [("name", JStr "drive"); ("arguments", long_arguments)])
     = Some ValueError
  /\ stderr (snd s) = [RequestError ValueError]
  /\ wire (snd s)
     = [Codec.q "{'jsonrpc': '2.0', 'id': 1, 'method': 'tools/list', 'params': {}}" ++ nl;
        Codec.q "{'jsonrpc': '2.0', 'id': 3, 'method': 'tools/call', 'params': {'name': 'stop', 'arguments': {}}}" ++ nl]
  /\ map (wire_id Codec.json_loads) (wire (snd s)) = [Some (JInt 1); Some (JInt 3)]
  /\ _request_id (self (snd s)) = 3.
Proof. run. Qed.

Lemma request_ids_follow_the_counter_witness :
  let p := child_printing answer_then_close in
  let w := session_with p in
  let s := run_requests Codec.json_loads Codec.json_dumps three_calls w in
  fst s = [Some matching_message; None; None]
  /\ stderr (snd s) = [RequestTimedOut]
  /\ exists (new : list string) p',
       process (self (snd s)) = Some p'
       /\ stdin p' = new
       /\ map (wire_id Codec.json_loads) new = [Some (JInt 1); Some (JInt 2); Some (JInt 3)]
       /\ _request_id (self (snd s)) = 3.
Proof.
  split; [reflexivity|]. split; [reflexivity|].
  destruct (request_ids_follow_the_counter Codec.json_loads Codec.json_dumps three_calls
              (session_with (child_printing answer_then_close))
              (child_printing answer_then_close))
    as [ids [new [p' [Hp' [Hin [Hids [_ [_ [_ [Hall Hid]]]]]]]]]].
  - reflexivity.
  - reflexivity.
  - intros i call Hi Hin _.
    assert (Hcases : i = 1 \/ i = 2 \/ i = 3) by (cbn in Hi; lia).
    cbn in Hin.
    destruct Hin as [<- | [<- | [<- | []]]];
      destruct Hcases as [-> | [-> | ->]]; vm_compute; reflexivity.
  - exists new, p'. split; [exact Hp'|]. split; [exact Hin|].
    split; [|exact Hid].
    rewrite Hids, (Hall eq_refl eq_refl). reflexivity.
Defined.

(** C5 at a response whose result is [null]: the first [if] of [call_tool]
    finds the [result] member and calls [.get] on it, which raises
    [AttributeError].  The same happens on a response whose error is a
    string, and a text that is a number makes [json.loads] raise
    [TypeError]. *)
Theorem call_tool_raises :
  let call line := fst (call_tool Codec.json_loads Codec.json_dumps "connect" (JDict [])
                          (session_with (child_answering line))) in
  Codec.json_loads (strip null_result_line)
  = Ok (JDict [("jsonrpc", JStr "2.0"); ("id", JInt 1); ("result", JNull)])
  /\ call null_result_line = Raise AttributeError
  /\ call error_string_line = Raise AttributeError
  /\ call numeric_text_line = Raise TypeError.
Proof. run. Qed.

(** C9 at a response whose result is [null]: the result has no [tools]
    entry, and [list_tools] raises [AttributeError] where it returns the
    empty list for a response without [result]. *)
Theorem list_tools_raises_on_null_result :
  let tools line := fst (list_tools Codec.json_loads Codec.json_dumps
                           (session_with (child_answering line))) in
  fst (_request Codec.json_loads Codec.json_dumps "tools/list" (JDict [])
         (session_with (child_answering null_result_line)))
  = Some (JDict [("jsonrpc", JStr "2.0"); ("id", JInt 1); ("result", JNull)])
  /\ tools null_result_line = Raise AttributeError
  /\ tools error_line = Ok (JList [])
  /\ tools empty_content_line = Ok (JList []).
Proof. run. Qed.

(** C10 at a response with a [result] member and no content list (the
    result is [null]), and at responses whose first content element has no
    [text] member (it is a number, or a string): [call_tool] raises
    [AttributeError] where it returns the "No response" error, or the empty
    object, when the result and the element are objects. *)
Theorem call_tool_raises_without_content_or_text :
  let response line := fst (_request Codec.json_loads Codec.json_dumps "tools/call"
                              (JDict [("name", JStr "connect"); ("arguments", JDict [])])
                              (session_with (child_answering line))) in
  let call line := fst (call_tool Codec.json_loads Codec.json_dumps "connect" (JDict [])
                          (session_with (child_answering line))) in
  (response null_result_line
   = Some (JDict [("jsonrpc", JStr "2.0"); ("id", JInt 1); ("result", JNull)])
   /\ call null_result_line = Raise AttributeError)
  /\ (response number_content_line
      = Some (JDict [("jsonrpc", JStr "2.0"); ("id", JInt 1);
                     ("result", JDict [("content", JList [JInt 5])])])
      /\ call number_content_line = Raise AttributeError)
  /\ (response string_content_line
      = Some (JDict [("jsonrpc", JStr "2.0"); ("id", JInt 1);
                     ("result", JDict [("content", JList [JStr "plain"])])])
      /\ call string_content_line = Raise AttributeError)
  /\ call empty_content_line = Ok (JDict [("error", JStr "No response from MCP server")])
  /\ call image_content_line = Ok (JDict []).
Proof. run. Qed.

Lemma start_reports_result_and_notifies_witness :
  let ok := start Codec.json_loads Codec.json_dumps
              (Ok (child_answering initialize_result_line)) fresh_world in
  let ko := start Codec.json_loads Codec.json_dumps
              (Ok (child_answering error_line)) fresh_world in
  (fst ok = true
   /\ wire (snd ok)
      = [request_line Codec.json_dumps 1 ("initialize", initialize_params);
         Codec.q "{'jsonrpc': '2.0', 'method': 'notifications/initialized', 'params': {}}" ++ nl])
  /\ (fst ko = false
      /\ wire (snd ko)
         = [request_line Codec.json_dumps 1 ("initialize", initialize_params)]).
Proof.
  split.
  - pose proof (start_reports_result_and_notifies Codec.json_loads Codec.json_dumps
                  (child_answering initialize_result_line) fresh_world)
      as [Hiff [_ [_ [_ [Hwire _]]]]].
    assert (Hok : fst (start Codec.json_loads Codec.json_dumps
                         (Ok (child_answering initialize_result_line)) fresh_world) = true).
    { apply Hiff. eexists. split; [reflexivity|]. split; reflexivity. }
    split; [exact Hok|].
    rewrite (Hwire eq_refl), Hok. reflexivity.
  - pose proof (start_reports_result_and_notifies Codec.json_loads Codec.json_dumps
                  (child_answering error_line) fresh_world)
      as [_ [Hiff [_ [_ [Hwire _]]]]].
    assert (Hko : fst (start Codec.json_loads Codec.json_dumps
                         (Ok (child_answering error_line)) fresh_world) = false).
    { destruct (fst (start Codec.json_loads Codec.json_dumps
                       (Ok (child_answering error_line)) fresh_world)) eqn:E;
        [|reflexivity].
      destruct (proj1 (Hiff _ eq_refl) eq_refl) as [x Hx]. discriminate Hx. }
    split; [exact Hko|].
    rewrite (Hwire eq_refl), Hko. reflexivity.
Defined.

Lemma convert_tools_shape_witness :
  Forall (fun tool => exists d name, tool = JDict d /\ dict_get "name" d = Some name)
         [connect_descriptor; drive_descriptor]
  /\ convert_tools_to_ollama [connect_descriptor; drive_descriptor]
     = Ok [JDict [("type", JStr "function");
                  ("function",
                   JDict [("name", JStr "connect");
                          ("description", JStr "d");
                          ("parameters",
                           JDict [("type", JStr "object"); ("properties", JDict [])])])];
           JDict [("type", JStr "function");
                  ("function",
                   JDict [("name", JStr "drive");
                          ("description", JStr "");
                          ("parameters",
                           JDict [("type", JStr "object");
                                  ("properties",
                                   JDict [("speed", JDict [("type", JStr "integer")])])])])]].
Proof.
  assert (H : Forall (fun tool => exists d name, tool = JDict d /\ dict_get "name" d = Some name)
                     [connect_descriptor; drive_descriptor]).
  { repeat constructor; eexists; eexists; split; reflexivity. }
  split; [exact H|].
  destruct (convert_tools_shape _ H) as [ollama [Hconv [Hlen Hnth]]].
  rewrite Hconv. f_equal.
  destruct ollama as [|a [|b [|c ollama]]]; try discriminate Hlen.
  pose proof (Hnth 0%nat _ _ eq_refl eq_refl) as H0.
  pose proof (Hnth 1%nat _ _ eq_refl eq_refl) as H1.
  cbn in H0, H1. injection H0 as ->. injection H1 as ->. reflexivity.
Defined.

(** ** The further properties on concrete sessions *)

(** A child that does not drain its stdin before instant 45 and prints
    nothing: the call entered at 0 returns at 75. *)
Lemma request_returns_by_deadline_witness :
  let p := child_draining_at 45 [] in
  let r := _request Codec.json_loads Codec.json_dumps "tools/list" (JDict [])
             (session_with p) in
  clock (snd r) = 75
  /\ 0 <= clock (snd r)
  /\ clock (snd r) <= write_done p 0 + timeout.
Proof.
  split; [reflexivity|].
  exact (request_returns_by_deadline Codec.json_loads Codec.json_dumps
           "tools/list" (JDict []) (session_with (child_draining_at 45 []))).
Defined.

Lemma request_keeps_handle_and_order_witness :
  let p := child_printing banner_then_match in
  let w' := snd (_request Codec.json_loads Codec.json_dumps "tools/list" (JDict [])
                   (session_with p)) in
  exists p' consumed,
    process (self w') = Some p'
    /\ stdout p = (consumed ++ stdout p')%list
    /\ (stdin p' = stdin p
        \/ stdin p' = (stdin p ++ [request_line Codec.json_dumps 1
                                     ("tools/list", JDict [])])%list)
    /\ calls p' = calls p
    /\ sigterm_exit p' = sigterm_exit p
    /\ stdin_broken_at p' = stdin_broken_at p
    /\ dropped w' = []
    /\ command (self w') = ["sphero-rvr-mcp"].
Proof.
  exact (request_keeps_handle_and_order Codec.json_loads Codec.json_dumps
           "tools/list" (JDict []) (session_with (child_printing banner_then_match))
           (child_printing banner_then_match) eq_refl).
Defined.

Lemma notify_effect_witness :
  let p := child_printing banner_then_match in
  let w := limited_session_with p in
  let w' := _notify Codec.json_dumps "notifications/initialized" (JDict []) w in
  let w'' := _notify Codec.json_dumps "notifications/progress" long_arguments w in
  (_request_id (self w') = 0
   /\ exists p',
        process (self w') = Some p'
        /\ stdout p' = stdout p
        /\ calls p' = []
        /\ stdin p'
           = [Codec.q "{'jsonrpc': '2.0', 'method': 'notifications/initialized', 'params': {}}"
              ++ nl]
        /\ stderr w' = [])
  /\ exists p'',
       process (self w'') = Some p''
       /\ stdin p'' = []
       /\ stderr w'' = [NotificationError ValueError].
Proof.
  intros p w w' w''. split.
  - destruct (notify_effect Codec.json_dumps "notifications/initialized" (JDict []) w)
      as [Hid [_ [_ Hlive]]].
    split; [exact Hid|].
    destruct (Hlive p eq_refl) as [p' [Hp' [Hout [Hcalls Hw]]]].
    exists p'. split; [exact Hp'|]. split; [exact Hout|]. split; [exact Hcalls|].
    exact Hw.
  - destruct (notify_effect Codec.json_dumps "notifications/progress" long_arguments w)
      as [_ [_ [_ Hlive]]].
    destruct (Hlive p eq_refl) as [p'' [Hp'' [_ [_ Hw]]]].
    exists p''. split; [exact Hp''|].
    assert (He : encode_error w long_arguments = Some ValueError)
      by (vm_compute; reflexivity).
    rewrite He in Hw. exact Hw.
Defined.

Lemma stop_sequence_witness :
  let w := session_with stubborn_child in
  exists (reaped : bool) p',
    process (self (stop w)) = None
    /\ dropped (stop w) = [p']
    /\ calls p' = (Terminate :: WaitFor grace reaped :: if reaped then [] else [Kill])
    /\ (reaped = true
        <-> exists d, exit_delay (terminate stubborn_child) = Some d /\ d <= grace)
    /\ stdin p' = []
    /\ 0 <= clock (stop w) <= 0 + grace
    /\ _request_id (self (stop w)) = 0
    /\ stderr (stop w) = [].
Proof.
  exact (stop_sequence (session_with stubborn_child) stubborn_child eq_refl).
Defined.

Lemma convert_tools_failure_witness :
  let nameless := JDict [("description", JStr "no name")] in
  let described tool :=
    exists d name, tool = JDict d /\ dict_get "name" d = Some name in
  Forall described [connect_descriptor]
  /\ convert_tools_to_ollama [connect_descriptor; nameless; drive_descriptor]
     = Raise KeyError
  /\ convert_tools_to_ollama [connect_descriptor; JStr "drive"] = Raise TypeError
  /\ ~ Forall described [connect_descriptor; nameless; drive_descriptor].
Proof.
  intros nameless described.
  assert (Hgood : Forall described [connect_descriptor]).
  { repeat constructor. eexists. eexists. split; reflexivity. }
  split; [exact Hgood|]. split; [|split].
  - apply (proj2 (convert_tools_failure [connect_descriptor; nameless; drive_descriptor])
             [connect_descriptor] nameless [drive_descriptor] eq_refl Hgood).
    intros d [= <-]. reflexivity.
  - apply (proj2 (convert_tools_failure [connect_descriptor; JStr "drive"])
             [connect_descriptor] (JStr "drive") [] eq_refl Hgood).
    intros d H. discriminate H.
  - intros H.
    apply (proj1 (convert_tools_failure [connect_descriptor; nameless; drive_descriptor]))
      in H.
    destruct H as [o Ho]. discriminate Ho.
Defined.

Lemma startup_calls_on_the_wire_witness :
  let p := child_printing [(1, initialize_result_line); (2, tools_line);
                           (3, disconnected_line)] in
  let started := start Codec.json_loads Codec.json_dumps (Ok p) fresh_world in
  let listed := list_tools Codec.json_loads Codec.json_dumps (snd started) in
  let called := call_tool Codec.json_loads Codec.json_dumps "connect" (JDict [])
                  (snd listed) in
  stdin_broken_at p = None
  /\ fst started = true
  /\ wire (snd called)
     = [Codec.q "{'jsonrpc': '2.0', 'id': 1, 'method': 'initialize', 'params': {'protocolVersion': '2024-11-05', 'capabilities': {}, 'clientInfo': {'name': 'rvr-chat', 'version': '0.1.0'}}}" ++ nl;
        Codec.q "{'jsonrpc': '2.0', 'method': 'notifications/initialized', 'params': {}}" ++ nl;
        Codec.q "{'jsonrpc': '2.0', 'id': 2, 'method': 'tools/list', 'params': {}}" ++ nl;
        Codec.q "{'jsonrpc': '2.0', 'id': 3, 'method': 'tools/call', 'params': {'name': 'connect', 'arguments': {}}}" ++ nl]
  /\ _request_id (self (snd called)) = 3.
Proof.
  intros p started listed called.
  split; [reflexivity|]. split; [reflexivity|].
  destruct (startup_calls_on_the_wire Codec.json_loads Codec.json_dumps p fresh_world
              "connect" (JDict []) eq_refl eq_refl) as [Hwire Hid].
  split; [|exact Hid].
  etransitivity; [exact Hwire|]. reflexivity.
Defined.

Lemma chat_stop_disconnects_then_terminates_witness :
  let p := child_answering disconnected_line in
  let w := session_with p in
  call_response_ok Codec.json_loads
    (fst (_request Codec.json_loads Codec.json_dumps "tools/call"
            (JDict [("name", JStr "disconnect"); ("arguments", JDict [])]) w)) = true
  /\ exists w' p' (reaped : bool),
       RVRChat_stop Codec.json_loads Codec.json_dumps (Some w) = (Ok tt, Some w')
       /\ process (self w') = None
       /\ dropped w' = [p']
       /\ stdin p'
          = [Codec.q "{'jsonrpc': '2.0', 'id': 1, 'method': 'tools/call', 'params': {'name': 'disconnect', 'arguments': {}}}" ++ nl]
       /\ calls p' = (Terminate :: WaitFor grace reaped :: if reaped then [] else [Kill])
       /\ 0 <= clock w' <= 0 + timeout + grace
       /\ _request_id (self w') = 1.
Proof.
  split; [reflexivity|].
  exact (chat_stop_disconnects_then_terminates Codec.json_loads Codec.json_dumps
           (session_with (child_answering disconnected_line))
           (child_answering disconnected_line) eq_refl eq_refl).
Defined.

Lemma chat_stop_raises_without_terminating_witness :
  let p := child_answering null_result_line in
  let w := session_with p in
  fst (call_tool Codec.json_loads Codec.json_dumps "disconnect" (JDict []) w)
  = Raise AttributeError
  /\ fst (RVRChat_stop Codec.json_loads Codec.json_dumps (Some w)) = Raise AttributeError
  /\ exists w' p',
       snd (RVRChat_stop Codec.json_loads Codec.json_dumps (Some w)) = Some w'
       /\ process (self w') = Some p'
       /\ calls p' = []
       /\ dropped w' = [].
Proof.
  split; [reflexivity|].
  exact (chat_stop_raises_without_terminating Codec.json_loads Codec.json_dumps
           (session_with (child_answering null_result_line))
           (child_answering null_result_line) AttributeError eq_refl eq_refl).
Defined.

Lemma add_message_bounded_witness :
  let m' := Memory.add_message "2025-01-01T10:01:00" "user" "turn left" None
              full_history in
  2 <= Memory.max_messages full_history
  /\ Z.of_nat (List.length (Memory.messages m')) <= 3
  /\ exists earlier,
       Memory.messages m' = (earlier ++ [user_message "turn left"])%list.
Proof.
  split; [discriminate|].
  apply (add_message_bounded "2025-01-01T10:01:00" "user" "turn left" None full_history).
  discriminate.
Defined.

Lemma add_message_keeps_system_prompt_witness :
  Memory.is_system system_message = true
  /\ hd_error (Memory.messages
                 (Memory.add_message "2025-01-01T10:01:00" "user" "turn left" None
                    full_history))
     = Some system_message.
Proof.
  split; [reflexivity|].
  exact (add_message_keeps_system_prompt "2025-01-01T10:01:00" "user" "turn left" None
           full_history system_message eq_refl eq_refl).
Defined.

Lemma add_message_drops_oldest_witness :
  Memory.messages (Memory.add_message "2025-01-01T10:01:00" "user" "turn left" None
                     full_history)
  = [system_message; assistant_message "Done."; user_message "turn left"]
  /\ Memory.messages (Memory.add_message "2025-01-01T10:01:00" "user" "turn left" None
                        full_history_no_prompt)
     = [user_message "drive forward"; assistant_message "Done."; user_message "turn left"].
Proof.
  split.
  - refine (add_message_drops_oldest "2025-01-01T10:01:00" "user" "turn left" None
              full_history system_message (user_message "drive forward")
              [assistant_message "Done."] _ eq_refl eq_refl).
    discriminate.
  - refine (add_message_drops_oldest "2025-01-01T10:01:00" "user" "turn left" None
              full_history_no_prompt (user_message "hello") (user_message "drive forward")
              [assistant_message "Done."] _ eq_refl eq_refl).
    discriminate.
Defined.

Lemma add_message_small_limit_witness :
  Memory.messages (Memory.add_message "2025-01-01T10:01:00" "user" "turn left" None
                     unlimited_history)
  = [user_message "hello"; user_message "turn left"]
  /\ Memory.messages (Memory.add_message "2025-01-01T10:01:00" "user" "turn left" None
                        one_message_history)
     = [system_message; system_message; user_message "turn left"]
  /\ Memory.messages (Memory.add_message "2025-01-01T10:01:00" "user" "turn left" None
                        one_message_no_prompt)
     = [user_message "turn left"].
Proof.
  split; [|split].
  - exact (proj1 (add_message_small_limit "2025-01-01T10:01:00" "user" "turn left" None
                    unlimited_history) eq_refl).
  - exact (proj1 (proj2 (add_message_small_limit "2025-01-01T10:01:00" "user" "turn left"
                           None one_message_history))
             system_message eq_refl eq_refl eq_refl).
  - apply (proj2 (proj2 (add_message_small_limit "2025-01-01T10:01:00" "user" "turn left"
                           None one_message_no_prompt)) eq_refl).
    intros first [= <-]. reflexivity.
Defined.

Lemma add_tool_result_is_not_trimmed_witness :
  let m1 := Memory.add_tool_result Codec.json_dumps "2025-01-01T10:01:00"
              "get_battery_status" (JDict [("battery_percentage", JInt 87)])
              full_history in
  2 <= Memory.max_messages full_history
  /\ Memory.messages m1
     = (Memory.messages full_history
        ++ [[("role", JStr "tool"); ("name", JStr "get_battery_status");
             ("content", JStr (Codec.q "{'battery_percentage': 87}"))]])%list
  /\ List.length (Memory.messages m1) = 4%nat
  /\ Z.of_nat (List.length
                 (Memory.messages
                    (Memory.add_message "2025-01-01T10:01:05" "assistant" "87 percent"
                       None m1))) <= 3.
Proof.
  split; [discriminate|].
  apply (add_tool_result_is_not_trimmed Codec.json_dumps
           "2025-01-01T10:01:00" "2025-01-01T10:01:05" "get_battery_status"
           "assistant" "87 percent" (JDict [("battery_percentage", JInt 87)]) None
           full_history).
  discriminate.
Defined.

Lemma clear_then_add_witness :
  let m' := Memory.clear "2025-01-01T10:02:00" full_history in
  2 <= Memory.max_messages full_history
  /\ Memory.messages m' = [system_message]
  /\ Memory.messages (Memory.clear "2025-01-01T10:02:01" m') = [system_message]
  /\ Memory.messages
       (Memory.add_message "2025-01-01T10:02:05" "user" "hello again" None m')
     = [system_message; user_message "hello again"].
Proof.
  intros m'.
  destruct (clear_then_add "2025-01-01T10:02:00" "2025-01-01T10:02:01"
              "2025-01-01T10:02:05" "user" "hello again" None full_history)
    as [_ [_ [Hkeep [Hidem [_ [_ Hadd]]]]]]; [discriminate|].
  fold m' in Hkeep, Hidem, Hadd.
  pose proof (Hkeep system_message eq_refl eq_refl) as Hm.
  split; [discriminate|]. split; [exact Hm|].
  split; [rewrite Hidem; exact Hm|].
  rewrite Hadd, Hm. reflexivity.
Defined.

Lemma handle_command_parts_spec_witness :
  lstrip (from_second "/") = ""
  /\ handle_command_parts "/" = Raise IndexError
  /\ lstrip (from_second "/QUIT  now ") <> ""
  /\ handle_command_parts "/QUIT  now " = Ok ("quit", "now ")
  /\ exists word rest,
       lstrip (from_second "/QUIT  now ") = word ++ rest
       /\ word <> ""
       /\ has_space word = false
       /\ match rest with
          | EmptyString => True
          | String c _ => isspace c = true
          end
       /\ handle_command_parts "/QUIT  now " = Ok (lower word, lstrip rest).
Proof.
  split; [reflexivity|].
  split; [exact (proj1 (handle_command_parts_spec "/") eq_refl)|].
  split; [discriminate|]. split; [reflexivity|].
  apply (proj2 (handle_command_parts_spec "/QUIT  now ")). discriminate.
Defined.

Lemma request_after_end_of_stream_witness :
  let w := session_with (child_printing [(1, "")]) in
  let r := _request Codec.json_loads Codec.json_dumps "tools/list" (JDict []) w in
  let r' := _request Codec.json_loads Codec.json_dumps "tools/call" (JDict []) (snd r) in
  fst r = None
  /\ fst r' = None
  /\ clock (snd r') = clock (snd r)
  /\ _request_id (self (snd r')) = 0 + 2.
Proof.
  destruct (request_after_end_of_stream Codec.json_loads Codec.json_dumps
              "tools/list" "tools/call" (JDict []) (JDict [])
              (session_with (child_printing [(1, "")])) (child_printing [(1, "")])
              1 [] eq_refl eq_refl eq_refl)
    as [H1 [H2 [H3 H4]]].
  split; [exact H1|]. split; [exact H2|]. split; [exact (H3 eq_refl) | exact H4].
Defined.

(** Without the premise on the encoder the next call does wait: a call
    whose arguments the encoder rejects returns at once without reading, and
    the call after it meets the end-of-stream that comes at instant 5. *)
Lemma rejected_call_does_not_reach_end_of_stream :
  let w := limited_session_with (child_printing [(5, "")]) in
  let r := _request Codec.json_loads Codec.json_dumps "tools/call" long_arguments w in
  let r' := _request Codec.json_loads Codec.json_dumps "tools/list" (JDict []) (snd r) in
  fst r = None
  /\ stderr (snd r) = [RequestError ValueError]
  /\ clock (snd r) = 0
  /\ fst r' = None
  /\ clock (snd r') = 5.
Proof. run. Qed.

Lemma list_tools_returns_advertised_tools_witness :
  let tools line := list_tools Codec.json_loads Codec.json_dumps
                      (session_with (child_answering line)) in
  let request line := _request Codec.json_loads Codec.json_dumps "tools/list" (JDict [])
                        (session_with (child_answering line)) in
  list_response_ok (fst (request tools_line)) = true
  /\ fst (tools tools_line) = Ok (JList [connect_descriptor])
  /\ fst (tools empty_content_line) = Ok (JList [])
  /\ fst (tools error_line) = Ok (JList [])
  /\ fst (tools "") = Ok (JList []).
Proof.
  split; [reflexivity|].
  split; [|split; [|split]].
  - exact (proj1 (list_tools_returns_advertised_tools Codec.json_loads Codec.json_dumps
                    (session_with (child_answering tools_line)) eq_refl)).
  - exact (proj1 (list_tools_returns_advertised_tools Codec.json_loads Codec.json_dumps
                    (session_with (child_answering empty_content_line)) eq_refl)).
  - exact (proj1 (list_tools_returns_advertised_tools Codec.json_loads Codec.json_dumps
                    (session_with (child_answering error_line)) eq_refl)).
  - exact (proj1 (list_tools_returns_advertised_tools Codec.json_loads Codec.json_dumps
                    (session_with (child_answering "")) eq_refl)).
Defined.

Lemma call_tool_returns_decoded_or_error_witness :
  let call line := call_tool Codec.json_loads Codec.json_dumps "get_battery" (JDict [])
                     (session_with (child_answering line)) in
  let request line := _request Codec.json_loads Codec.json_dumps "tools/call"
                        (JDict [("name", JStr "get_battery"); ("arguments", JDict [])])
                        (session_with (child_answering line)) in
  call_response_ok Codec.json_loads (fst (request battery_line)) = true
  /\ fst (call battery_line) = Ok (JDict [("battery_percentage", JInt 87)])
  /\ fst (call plain_text_line) = Ok (JDict [("result", JStr "not json")])
  /\ fst (call error_line) = Ok (JDict [("error", JStr "RVR not connected")])
  /\ fst (call "") = Ok (JDict [("error", JStr "No response from MCP server")]).
Proof.
  split; [reflexivity|].
  split; [|split; [|split]].
  - exact (proj1 (call_tool_returns_decoded_or_error Codec.json_loads Codec.json_dumps
                    "get_battery" (JDict []) (session_with (child_answering battery_line))
                    eq_refl)).
  - exact (proj1 (call_tool_returns_decoded_or_error Codec.json_loads Codec.json_dumps
                    "get_battery" (JDict []) (session_with (child_answering plain_text_line))
                    eq_refl)).
  - exact (proj1 (call_tool_returns_decoded_or_error Codec.json_loads Codec.json_dumps
                    "get_battery" (JDict []) (session_with (child_answering error_line))
                    eq_refl)).
  - exact (proj1 (call_tool_returns_decoded_or_error Codec.json_loads Codec.json_dumps
                    "get_battery" (JDict []) (session_with (child_answering ""))
                    eq_refl)).
Defined.

Lemma call_tool_empty_content_and_missing_text_witness :
  let call line := fst (call_tool Codec.json_loads Codec.json_dumps "connect" (JDict [])
                          (session_with (child_answering line))) in
  Codec.json_loads "{}" = Ok (JDict [])
  /\ call empty_content_line = Ok (JDict [("error", JStr "No response from MCP server")])
  /\ call image_content_line = Ok (JDict []).
Proof.
  split; [reflexivity|]. split.
  - refine (proj1 (call_tool_empty_content_and_missing_text
                     Codec.json_loads Codec.json_dumps "connect" (JDict [])
                     (session_with (child_answering empty_content_line))
                     [("jsonrpc", JStr "2.0"); ("id", JInt 1);
                      ("result", JDict [("content", JList [])])]
                     [("content", JList [])] eq_refl eq_refl) eq_refl _).
    right. reflexivity.
  - exact (proj2 (call_tool_empty_content_and_missing_text
                    Codec.json_loads Codec.json_dumps "connect" (JDict [])
                    (session_with (child_answering image_content_line))
                    [("jsonrpc", JStr "2.0"); ("id", JInt 1);
                     ("result",
                      JDict [("content",
                              JList [JDict [("type", JStr "image"); ("data", JStr "AAAA")]])])]
                    [("content", JList [JDict [("type", JStr "image"); ("data", JStr "AAAA")]])]
                    eq_refl eq_refl)
                 [("type", JStr "image"); ("data", JStr "AAAA")] [] eq_refl eq_refl eq_refl).
Defined.

